(** * dd-grade-2025: the diastolic-function decision engine (lib/dd2025.ts)

    A shallow embedding of [computeDD2025] and of the helpers it is built
    from ([safeDiv], [avg2], [pack], [computeSinus], [computeAF]), of the
    summary text and the badge of the page (app/page.tsx), followed by their
    properties.

    Numbers.  A TypeScript [number | null] is an [option float]: [None] is
    [null], and a number is an IEEE 754 binary64 value, Rocq's primitive
    [float], with its NaN, infinities and signed zeros.  [+], [*], [/] and the
    comparisons are the binary64 operations, as in JavaScript.  [Math.round]
    is defined on the exact value of its argument. *)

From Stdlib Require Import Floats ZArith QArith Qround List String Bool Lia Lqa.
From Stdlib Require Import DecimalString.
From Stdlib Require Uint63.
Import ListNotations.

Set Warnings "-inexact-float".

Local Open Scope string_scope.
Local Open Scope float_scope.

(** ** JavaScript primitives used by the engine *)

Module JS.

Definition number := float.

(** [a <= b], [a >= b], [a < b], [a > b], [a === b] on numbers: the IEEE
    comparisons, false whenever an operand is NaN. *)
Definition le (a b : number) : bool := PrimFloat.leb a b.
Definition ge (a b : number) : bool := PrimFloat.leb b a.
Definition lt (a b : number) : bool := PrimFloat.ltb a b.
Definition gt (a b : number) : bool := PrimFloat.ltb b a.
Definition strict_eq (a b : number) : bool := PrimFloat.eqb a b.

(** [v == null] and [v != null]. *)
Definition is_null (v : option number) : bool :=
  match v with None => true | Some _ => false end.

(** [v != null && p v]: the guard every rule of the engine is written with. *)
Definition present_and (v : option number) (p : number -> bool) : bool :=
  match v with Some n => p n | None => false end.

(** The exact value of the finite double with sign [s], mantissa [m] and
    exponent [e]: plus or minus [m * 2^e]. *)
Definition SF2Q (s : bool) (m : positive) (e : Z) : Q :=
  let n := if s then Zneg m else Zpos m in
  match e with
  | Z0 => inject_Z n
  | Zpos p => inject_Z (n * Z.pow_pos 2 p)
  | Zneg p => Qmake n (Pos.pow 2 p)
  end.

(** The double of the integer [n], for [n] of magnitude at most 2^53; [s]
    gives the sign of a zero. *)
Definition Z2float (s : bool) (n : Z) : number :=
  match n with
  | Z0 => if s then PrimFloat.neg_zero else PrimFloat.zero
  | Zpos _ => PrimFloat.of_uint63 (Uint63.of_Z n)
  | Zneg p => PrimFloat.opp (PrimFloat.of_uint63 (Uint63.of_Z (Zpos p)))
  end.

(** [Math.round]: NaN, the infinities, the zeros and the doubles that are
    already integers (exponent at least 0, so magnitude at least 2^52) are
    returned as they are; any other double [x] goes to the integer nearest to
    its exact value, a tie going to the larger integer, [floor (x + 1/2)],
    with the sign of [x] when that integer is zero. *)
Definition Math_round (x : number) : number :=
  match Prim2SF x with
  | S754_finite s m e =>
      if (0 <=? e)%Z then x
      else Z2float s (Qfloor (SF2Q s m e + (1 # 2))%Q)
  | _ => x
  end.

(** [arr.push(s)]. *)
Definition push (arr : list string) (s : string) : list string := arr ++ [s].

(** [if (c) arr.push(s)]. *)
Definition push_if (c : bool) (arr : list string) (s : string) : list string :=
  if c then push arr s else arr.

(** [if (c) n++]. *)
Definition incr_if (c : bool) (n : nat) : nat := if c then S n else n.

(** [`${n}`] for a non-negative integer. *)
Definition show (n : nat) : string := NilEmpty.string_of_uint (Nat.to_uint n).

End JS.

(** ** Data model *)

Record DDInputs := mkInputs {
  isAF : bool;
  E : option float;
  A : option float;
  eSeptal : option float;
  eLateral : option float;
  trVmax : option float;
  pasp : option float;
  lavi : option float;
  lars : option float;
  pvSD : option float;
  ivrt : option float;
  dt : option float;
  bmi : option float
}.

Inductive Tone := green | blue | amber | red | gray.

Record Derived := mkDerived {
  EA : option float;
  eAvg : option float;
  EeAvg : option float
}.

Record DDResult := mkResult {
  gradeLabel : string;
  summary : string;
  badgeTone : Tone;
  derived : Derived;
  ruleTrace : list string;
  missing : list string
}.

(** ** Utilities *)

Definition safeDiv (a b : option float) : option float :=
  match a, b with
  | Some a, Some b =>
      if JS.strict_eq b 0 then None
      else Some (JS.Math_round ((a / b) * 100) / 100)
  | _, _ => None
  end.

Definition avg2 (a b : option float) : option float :=
  match a, b with
  | None, None => None
  | None, Some _ => b
  | Some _, None => a
  | Some a, Some b => Some (JS.Math_round (((a + b) / 2) * 100) / 100)
  end.

Definition pack (gradeLabel summary : string) (badgeTone : Tone)
    (EA eAvg EeAvg : option float) (ruleTrace missing : list string) : DDResult :=
  mkResult gradeLabel summary badgeTone (mkDerived EA eAvg EeAvg) ruleTrace missing.

(** ** Sinus rhythm (Algorithm 1) *)

Module Sinus.

Section Locals.
Variable x : DDInputs.

Definition EA : option float := safeDiv (E x) (A x).
Definition eAvg : option float := avg2 (eSeptal x) (eLateral x).
Definition EeAvg : option float := safeDiv (E x) eAvg.

(** The three conditional [missing.push] of the pre-check, in order. *)
Definition missing : list string :=
  let m := [] in
  let m := JS.push_if (JS.is_null (E x)) m "Mitral E (cm/s)" in
  let m := JS.push_if (JS.is_null (A x)) m "Mitral A (cm/s) (needed for E/A)" in
  JS.push_if (JS.is_null (eSeptal x) && JS.is_null (eLateral x)) m
    "Septal and/or lateral e′ (cm/s)".

Definition reducedE : bool :=
  JS.present_and (eSeptal x) (fun v => JS.le v 6)
  || JS.present_and (eLateral x) (fun v => JS.le v 7)
  || JS.present_and eAvg (fun v => JS.le v 6.5).

Definition highEe : bool := JS.present_and EeAvg (fun v => JS.ge v 14).

Definition highTR : bool :=
  JS.present_and (trVmax x) (fun v => JS.ge v 2.8)
  || JS.present_and (pasp x) (fun v => JS.ge v 35).

Definition nAbn : nat :=
  List.length (List.filter (fun b : bool => b) [reducedE; highEe; highTR]).

Definition anyConfirmAvailable : bool :=
  negb (JS.is_null (pvSD x)) || negb (JS.is_null (lars x))
  || negb (JS.is_null (lavi x)) || negb (JS.is_null (ivrt x)).

Definition lap : bool :=
  JS.present_and (pvSD x) (fun v => JS.le v 0.67)
  || JS.present_and (lars x) (fun v => JS.le v 18)
  || JS.present_and (lavi x) (fun v => JS.gt v 34)
  || JS.present_and (ivrt x) (fun v => JS.le v 70).

(** Elevated LAP: the grade depends on E/A (the last three returns). *)
Definition gradeElevated (trace : list string) : DDResult :=
  match EA with
  | None =>
      pack "Increased LAP (grade unknown)"
        "Elevated LAP but E/A missing → cannot assign Grade 2 vs 3"
        red EA eAvg EeAvg trace missing
  | Some ea =>
      if JS.ge ea 2 then
        pack "Grade 3" "Elevated LAP with E/A ≥ 2"
          red EA eAvg EeAvg trace missing
      else
        pack "Grade 2" "Elevated LAP with E/A < 2"
          red EA eAvg EeAvg trace missing
  end.

(** Confirm LAP: everything of [computeSinus] after the reduced-e′ block,
    entered with the trace accumulated so far. *)
Definition confirmLAP (trace : list string) : DDResult :=
  if negb anyConfirmAvailable then
    let trace := JS.push trace "No confirmatory variables available" in
    pack "Indeterminate"
      "Need ≥1 confirmatory variable (PV S/D, LARS, LAVI, or IVRT) to confirm LAP"
      amber EA eAvg EeAvg trace missing
  else
    let trace :=
      JS.push trace (if lap then "LAP elevated" else "LAP not elevated") in
    if negb lap then
      pack "Indeterminate"
        "Abnormal markers present but LAP not confirmed by PV S/D, LARS, LAVI, or IVRT"
        amber EA eAvg EeAvg trace missing
    else gradeElevated trace.

(** The [E/A != null && E/A <= 0.8] test of the reduced-e′-only block. *)
Definition lowEA : bool := JS.present_and EA (fun v => JS.le v 0.8).

Definition computeSinus : DDResult :=
  let trace := [] in
  let trace :=
    JS.push trace ("Top markers abnormal: " ++ JS.show nAbn ++ "/3") in
  if Nat.eqb nAbn 0 then
    pack "Normal DF" "All diastolic markers normal → Normal LAP"
      green EA eAvg EeAvg trace missing
  else if reducedE && negb highEe && negb highTR then
    let trace := JS.push trace "Reduced e′ only branch" in
    if lowEA then
      pack "Grade 1" "Reduced e′ only with E/A ≤ 0.8"
        blue EA eAvg EeAvg trace missing
    else confirmLAP trace
  else confirmLAP trace.
End Locals.

End Sinus.

(** ** Atrial fibrillation (Algorithm 2) *)

Module AF.

Section Locals.
Variable x : DDInputs.

Definition eAvg : option float := avg2 (eSeptal x) (eLateral x).
Definition EeAvg : option float := safeDiv (E x) eAvg.

Definition missing : list string :=
  let m := [] in
  let m := JS.push_if (JS.is_null (E x)) m "Mitral E (cm/s)" in
  let m := JS.push_if (JS.is_null (eSeptal x)) m
             "Septal e′ (cm/s) (for septal E/e′)" in
  let m := JS.push_if (JS.is_null (trVmax x) && JS.is_null (pasp x)) m
             "TR Vmax (m/s) or PASP (mmHg)" in
  JS.push_if (JS.is_null (dt x)) m "DT (ms)".

(** 1) E ≥ 100 *)
Definition critE : bool := JS.present_and (E x) (fun e => JS.ge e 100).

(** 2) septal E/e′ > 11 *)
Definition critEe : bool :=
  JS.present_and (E x) (fun e =>
    JS.present_and (eSeptal x) (fun s =>
      negb (JS.strict_eq s 0) && JS.gt (e / s) 11)).

(** 3) TR > 2.8 or PASP > 35 *)
Definition critTR : bool :=
  JS.present_and (trVmax x) (fun v => JS.gt v 2.8)
  || JS.present_and (pasp x) (fun v => JS.gt v 35).

(** 4) DT ≤ 160 *)
Definition critDT : bool := JS.present_and (dt x) (fun v => JS.le v 160).

Definition count : nat :=
  let count := 0%nat in
  let count := JS.incr_if critE count in
  let count := JS.incr_if critEe count in
  let count := JS.incr_if critTR count in
  JS.incr_if critDT count.

(** One secondary criterion: [if (v != null) { secAvail++; if (p v) sec++ }]
    on the pair [(sec, secAvail)]. *)
Definition secondary (v : option float) (p : float -> bool) (s : nat * nat) : nat * nat :=
  match v with
  | None => s
  | Some n => (JS.incr_if (p n) (fst s), S (snd s))
  end.

Definition secPair : nat * nat :=
  let s := (0%nat, 0%nat) in
  let s := secondary (lars x) (fun v => JS.lt v 18) s in
  let s := secondary (pvSD x) (fun v => JS.lt v 1) s in
  secondary (bmi x) (fun v => JS.gt v 30) s.

Definition sec : nat := fst secPair.
Definition secAvail : nat := snd secPair.

Definition computeAF : DDResult :=
  let trace := [] in
  let trace :=
    JS.push trace ("AF criteria positive: " ++ JS.show count ++ "/4") in
  if Nat.leb count 1 then
    pack "Normal LAP" "0–1 AF criteria positive"
      green None eAvg EeAvg trace missing
  else if Nat.leb 3 count then
    pack "Elevated LAP" "≥3 AF criteria positive"
      red None eAvg EeAvg trace missing
  else
    let trace :=
      JS.push trace
        ("Secondary criteria positive: " ++ JS.show sec ++ "/"
           ++ JS.show (if Nat.eqb secAvail 0 then 0 else secAvail)) in
    if Nat.eqb secAvail 0 then
      pack "Indeterminate"
        "2 AF criteria positive, but no secondary criteria available (LARS, PV S/D, BMI)"
        amber None eAvg EeAvg trace missing
    else if Nat.leb 2 sec then
      pack "Elevated LAP" "2 AF criteria + ≥2 secondary criteria positive"
        red None eAvg EeAvg trace missing
    else if Nat.eqb sec 0 then
      pack "Normal LAP" "2 AF criteria + no secondary criteria positive"
        green None eAvg EeAvg trace missing
    else
      pack "Indeterminate"
        "2 AF criteria + only 1 secondary criterion positive (or unreliable)"
        amber None eAvg EeAvg trace missing.
End Locals.

End AF.

Definition computeDD2025 (x : DDInputs) : DDResult :=
  if isAF x then AF.computeAF x else Sinus.computeSinus x.

(** ** Notions the properties are stated with *)

(** The measurements of a bundle, by name. *)
Inductive Field :=
  | fE | fA | fESeptal | fELateral | fTrVmax | fPasp
  | fLavi | fLars | fPvSD | fIvrt | fDt | fBmi.

Definition field (f : Field) (x : DDInputs) : option float :=
  match f with
  | fE => E x | fA => A x | fESeptal => eSeptal x | fELateral => eLateral x
  | fTrVmax => trVmax x | fPasp => pasp x | fLavi => lavi x | fLars => lars x
  | fPvSD => pvSD x | fIvrt => ivrt x | fDt => dt x | fBmi => bmi x
  end.

(** The measurements each algorithm reads: [computeAF] for [af = true],
    [computeSinus] otherwise. *)
Definition relevant (af : bool) (f : Field) : bool :=
  match f with
  | fE | fESeptal | fELateral | fTrVmax | fPasp | fLars | fPvSD => true
  | fA | fLavi | fIvrt => negb af
  | fDt | fBmi => af
  end.

(** The measurements an advisory string of the engine names. *)
Definition advisoryFields (s : string) : list Field :=
  if String.eqb s "Mitral E (cm/s)" then [fE]
  else if String.eqb s "Mitral A (cm/s) (needed for E/A)" then [fA]
  else if String.eqb s "Septal and/or lateral e′ (cm/s)" then [fESeptal; fELateral]
  else if String.eqb s "Septal e′ (cm/s) (for septal E/e′)" then [fESeptal]
  else if String.eqb s "TR Vmax (m/s) or PASP (mmHg)" then [fTrVmax; fPasp]
  else if String.eqb s "DT (ms)" then [fDt]
  else [].

(** Rounding an exact value to the nearest integer with ties going away from
    zero, as the specification words the rounding of the two helpers. *)
Definition round_half_away (x : Q) : Z :=
  (if Qle_bool 0 x then Qfloor (x + (1 # 2)) else Qceiling (x - (1 # 2)))%Q.

(** [Math.round] as the specification words it: like [JS.Math_round], with
    ties going away from zero. *)
Definition Math_round_half_away (x : float) : float :=
  match Prim2SF x with
  | S754_finite s m e =>
      if (0 <=? e)%Z then x
      else JS.Z2float s (round_half_away (JS.SF2Q s m e))
  | _ => x
  end.

(** The specification's rounding at the second decimal: multiply by 100, round
    half away from zero, divide by 100. *)
Definition round2_half_away (v : float) : float :=
  Math_round_half_away (v * 100) / 100.

(** The rounding both helpers apply: [Math.round(v * 100) / 100]. *)
Definition round2 (v : float) : float := JS.Math_round (v * 100) / 100.

(** The exact value [x] lies half way between two integers. *)
Definition is_tie (x : Q) : Prop :=
  (inject_Z (Qfloor (x + (1 # 2))) == x + (1 # 2))%Q.

(** [n] is the integer nearest to the exact value [x], a tie going to the
    larger integer. *)
Definition nearest_ties_up (x : Q) (n : Z) : Prop :=
  (x - (1 # 2) < inject_Z n /\ inject_Z n <= x + (1 # 2))%Q.

(** [Math.round] returns [y] as it is: [y] is NaN, infinite, a zero, or a
    double with exponent at least 0 (an integer of magnitude at least 2^52). *)
Definition kept_by_round (y : float) : bool :=
  match Prim2SF y with
  | S754_finite _ _ e => (0 <=? e)%Z
  | _ => true
  end.

(** A number rounded to two decimals: finite, and left unchanged by rounding
    it to two decimals again. *)
Definition two_decimals (v : float) : Prop :=
  PrimFloat.is_finite v = true /\ round2 v = v.

(** Null, or a number rounded to two decimals. *)
Definition null_or_two_decimals (v : option float) : Prop :=
  match v with None => True | Some q => two_decimals q end.

Definition b2n (b : bool) : nat := if b then 1%nat else 0%nat.

(** No advisory of the result names a measurement the bundle has. *)
Definition reports_no_present_field (x : DDInputs) : Prop :=
  forall s f, In s (missing (computeDD2025 x)) -> In f (advisoryFields s) ->
    field f x = None.

(** Every measurement that is absent and read by the active algorithm is named
    by an advisory of the result. *)
Definition reports_every_absent_relevant_field (x : DDInputs) : Prop :=
  forall f, relevant (isAF x) f = true -> field f x = None ->
    exists s, In s (missing (computeDD2025 x)) /\ In f (advisoryFields s).

(** ** Building bundles *)

Definition bundle (af : bool) (e a es el tr pa la ls pv iv d b : option float) : DDInputs :=
  mkInputs af e a es el tr pa la ls pv iv d b.

(** The bundle [x] with its four confirmatory inputs replaced. *)
Definition setConfirmatory (x : DDInputs) (pv ls la iv : option float) : DDInputs :=
  mkInputs (isAF x) (E x) (A x) (eSeptal x) (eLateral x) (trVmax x) (pasp x)
    la ls pv iv (dt x) (bmi x).

(** ** Sample bundles *)

(** Normal top markers, with all four confirmatory variables abnormal. *)
Definition normalBundle : DDInputs :=
  bundle false (Some 80) (Some 60) (Some 7) (Some 10) (Some 2.6) None
    (Some 50) (Some 10) (Some 0.5) (Some 60) None None.

(** E/A is exactly 2 and LAVI confirms the elevated LAP. *)
Definition grade3Bundle : DDInputs :=
  bundle false (Some 100) (Some 50) (Some 5) (Some 6) None None
    (Some 40) None None None None None.

(** Reduced e′ alone, with E/A = 0.5. *)
Definition grade1Bundle : DDInputs :=
  bundle false (Some 50) (Some 100) (Some 5) (Some 6) None None
    None None None None None None.

(** Reduced e′ alone, with E/A = 1.33 and no confirmatory variable. *)
Definition fallThroughBundle : DDInputs :=
  bundle false (Some 80) (Some 60) (Some 5) (Some 10) None None
    None None None None None None.

(** Reduced e′ alone, E/A = 1.33, and a normal LARS as the only confirmatory
    variable. *)
Definition notConfirmedBundle : DDInputs :=
  bundle false (Some 80) (Some 60) (Some 5) (Some 10) None None
    None (Some 30) None None None None.

(** AF: two primary criteria (TR Vmax, DT) and two of three secondary ones. *)
Definition afTieBundle : DDInputs :=
  bundle true (Some 95) None (Some 9) None (Some 3.0) None
    None (Some 10) (Some 0.8) None (Some 140) (Some 25).

(** AF: the four primary criteria. *)
Definition afTally4Bundle : DDInputs :=
  bundle true (Some 110) (Some 70) (Some 8) None (Some 3.0) None
    None None None None (Some 140) None.

(** AF: nothing measured but the body-mass index. *)
Definition afEmptyBundle : DDInputs :=
  bundle true None None None None None None None None None None None (Some 25).

(** Sinus: septal e′ = 7.125 cm/s is the only e′ measured. *)
Definition singleEBundle : DDInputs :=
  bundle false (Some 80) (Some 60) (Some 7.125) None None None
    None None None None None None.

(** ** Notions for the further properties of the engine *)

(** The (grade, tone) pairs of the returns of [computeSinus], in source order. *)
Definition sinusOutcomes : list (string * Tone) :=
  [("Normal DF", green); ("Grade 1", blue); ("Indeterminate", amber);
   ("Increased LAP (grade unknown)", red); ("Grade 3", red); ("Grade 2", red)].

(** The (grade, tone) pairs of the returns of [computeAF]. *)
Definition afOutcomes : list (string * Tone) :=
  [("Normal LAP", green); ("Elevated LAP", red); ("Indeterminate", amber)].

(** The tone that goes with each grade label, read off the [pack] calls;
    [gray] stands for a label the engine does not use. *)
Definition toneOfLabel (l : string) : Tone :=
  if String.eqb l "Normal DF" then green
  else if String.eqb l "Normal LAP" then green
  else if String.eqb l "Grade 1" then blue
  else if String.eqb l "Indeterminate" then amber
  else if String.eqb l "Increased LAP (grade unknown)" then red
  else if String.eqb l "Grade 2" then red
  else if String.eqb l "Grade 3" then red
  else if String.eqb l "Elevated LAP" then red
  else gray.

(** The bundle [x] with the two AF-only inputs, DT and BMI, replaced. *)
Definition setAFOnly (x : DDInputs) (d b : option float) : DDInputs :=
  mkInputs (isAF x) (E x) (A x) (eSeptal x) (eLateral x) (trVmax x) (pasp x)
    (lavi x) (lars x) (pvSD x) (ivrt x) d b.

(** The bundle [x] with mitral A, LAVI and IVRT replaced. *)
Definition setSinusOnly (x : DDInputs) (a la iv : option float) : DDInputs :=
  mkInputs (isAF x) (E x) a (eSeptal x) (eLateral x) (trVmax x) (pasp x)
    la (lars x) (pvSD x) iv (dt x) (bmi x).

(** The trace entries [computeSinus] can push after the tally line. *)
Definition sinusStageEntries : list string :=
  ["Reduced e′ only branch"; "No confirmatory variables available";
   "LAP elevated"; "LAP not elevated"].

(** Sinus: TR Vmax is exactly 2.8 m/s, the only input. *)
Definition trBoundaryBundle : DDInputs :=
  bundle false None None None None (Some 2.8) None None None None None None None.

(** Sinus: A is measured as zero. *)
Definition zeroABundle : DDInputs :=
  bundle false (Some 80) (Some 0) (Some 5) (Some 6) None None
    (Some 40) None None None None None.

(** Sinus: no e′, TR Vmax or PASP measured; the confirmatory inputs are all
    abnormal. *)
Definition noMarkerInputBundle : DDInputs :=
  bundle false (Some 150) (Some 50) None None None None
    (Some 50) (Some 10) (Some 0.5) (Some 60) None None.

(** The bundle [x] with its lateral e′ replaced. *)
Definition setLateral (x : DDInputs) (l : option float) : DDInputs :=
  mkInputs (isAF x) (E x) (A x) (eSeptal x) l (trVmax x) (pasp x)
    (lavi x) (lars x) (pvSD x) (ivrt x) (dt x) (bmi x).

(** Sinus: a septal e′ of 6.3 cm/s is the only measurement. *)
Definition septalOnlyBundle : DDInputs :=
  bundle false None None (Some 6.3) None None None None None None None None None.

(** Sinus: E/A overflows, 1e308 / 1e-308. *)
Definition overflowBundle : DDInputs :=
  bundle false (Some 1e308) (Some 1e-308) (Some 7) (Some 10) None None
    None None None None None None.

(** AF: E / septal e′ is 112.2 / 10.2, whose binary64 quotient is just above 11. *)
Definition afQuotientBundle : DDInputs :=
  bundle true (Some 112.2) None (Some 10.2) None None None
    None None None None None None.

(** ** The summary text of the page (app/page.tsx)

    The page turns the bundle and the result into the text it copies to the
    clipboard.  The conversion of a number to text, [String(v)] and [`${v}`],
    and [Math.pow] are parameters of the model. *)

Module Page.

Section Summary.
Variable String_ : float -> string.
Variable Math_pow : float -> float -> float.

(** [fmt(x, digits)]. *)
Definition fmt (x : option float) (digits : float) : string :=
  match x with
  | None => "—"
  | Some v =>
      let p := Math_pow 10 digits in
      String_ (JS.Math_round (v * p) / p)
  end.

(** The closure [add(label, value, unit)] of [summaryText], on the lines
    accumulated so far. *)
Definition add (lines : list string) (label : string) (value : option float)
    (unit : string) : list string :=
  match value with
  | None => lines
  | Some v =>
      JS.push lines
        (label ++ ": " ++ String_ v
           ++ (if String.eqb unit "" then "" else " " ++ unit))
  end.

(** The [lines] array of [summaryText] just before [lines.join]. *)
Definition summaryLines (formIsAF : bool) (inputs : DDInputs) (result : DDResult)
    (showTrace : bool) : list string :=
  let lines := [] in
  let lines := JS.push lines "LV Diastolic Function (2025)" in
  let lines :=
    JS.push lines
      ("Mode: " ++ (if formIsAF then "Atrial fibrillation" else "Sinus rhythm")) in
  let lines := JS.push lines "" in
  let lines := add lines "Mitral E" (E inputs) "cm/s" in
  let lines :=
    if negb formIsAF then add lines "Mitral A" (A inputs) "cm/s" else lines in
  let lines := add lines "Septal e′" (eSeptal inputs) "cm/s" in
  let lines :=
    if negb formIsAF then add lines "Lateral e′" (eLateral inputs) "cm/s"
    else lines in
  let lines := add lines "TR Vmax" (trVmax inputs) "m/s" in
  let lines := add lines "PASP" (pasp inputs) "mmHg" in
  let lines := add lines "LAVI" (lavi inputs) "mL/m²" in
  let lines := add lines "LARS" (lars inputs) "%" in
  let lines := add lines "Pulm vein S/D" (pvSD inputs) "" in
  let lines := if negb formIsAF then add lines "IVRT" (ivrt inputs) "ms" else lines in
  let lines := if formIsAF then add lines "DT" (dt inputs) "ms" else lines in
  let lines := if formIsAF then add lines "BMI" (bmi inputs) "kg/m²" else lines in
  let lines := JS.push lines "" in
  let lines := JS.push lines ("Result: " ++ gradeLabel result) in
  let lines := JS.push lines ("Reason: " ++ summary result) in
  let derivedParts := [] in
  let derivedParts :=
    if negb formIsAF
    then JS.push derivedParts ("E/A " ++ fmt (EA (derived result)) 2)
    else derivedParts in
  let derivedParts :=
    JS.push derivedParts ("Avg e′ " ++ fmt (eAvg (derived result)) 2) in
  let derivedParts :=
    JS.push derivedParts ("E/e′ " ++ fmt (EeAvg (derived result)) 2) in
  let lines := JS.push lines ("Derived: " ++ String.concat ", " derivedParts) in
  let lines :=
    if Nat.ltb 0 (List.length (missing result)) then
      let lines := JS.push lines "" in
      JS.push lines
        ("Missing/recommended: " ++ String.concat "; " (missing result))
    else lines in
  let lines :=
    if showTrace && Nat.ltb 0 (List.length (ruleTrace result)) then
      let lines := JS.push lines "" in
      let lines := JS.push lines "Rule trace:" in
      List.fold_left (fun lines r => JS.push lines ("- " ++ r))
        (ruleTrace result) lines
    else lines in
  lines.

(** The line feed the lines are joined with. *)
Definition newline : string := String (Ascii.ascii_of_nat 10) EmptyString.

Definition summaryText (formIsAF : bool) (inputs : DDInputs) (result : DDResult)
    (showTrace : bool) : string :=
  String.concat newline (summaryLines formIsAF inputs result showTrace).

End Summary.

(** A line of the summary that opens the missing-input section. *)
Definition isMissingLine (l : string) : bool :=
  String.prefix "Missing/recommended: " l.

(** The label [summaryText] gives each measurement in its [add] calls. *)
Definition inputLabel (f : Field) : string :=
  match f with
  | fE => "Mitral E" | fA => "Mitral A"
  | fESeptal => "Septal e′" | fELateral => "Lateral e′"
  | fTrVmax => "TR Vmax" | fPasp => "PASP" | fLavi => "LAVI" | fLars => "LARS"
  | fPvSD => "Pulm vein S/D" | fIvrt => "IVRT" | fDt => "DT" | fBmi => "BMI"
  end.

(** The measurements [summaryText] calls [add] for, by mode. *)
Definition shownIn (formIsAF : bool) (f : Field) : bool :=
  match f with
  | fA | fELateral | fIvrt => negb formIsAF
  | fDt | fBmi => formIsAF
  | _ => true
  end.

(** A line of the summary that reports the measurement [f]. *)
Definition isInputLine (f : Field) (l : string) : bool :=
  String.prefix (inputLabel f ++ ": ") l.

End Page.

(** ** The badge of the page (app/page.tsx)

    [Badge] picks the style classes and the text of the badge from the tone. *)

Module Badge.

Definition cls (tone : Tone) : string :=
  match tone with
  | green => "bg-green-100 text-green-900 border-green-200"
  | blue => "bg-blue-100 text-blue-900 border-blue-200"
  | amber => "bg-amber-100 text-amber-900 border-amber-200"
  | red => "bg-red-100 text-red-900 border-red-200"
  | gray => "bg-gray-100 text-gray-900 border-gray-200"
  end.

Definition label (tone : Tone) : string :=
  match tone with
  | green => "Normal"
  | blue => "Grade 1"
  | amber => "Indeterminate"
  | red => "Elevated"
  | gray => "—"
  end.

End Badge.

(** ** The worked examples of the specification *)

Example sinus_normal_example :
  let r := computeDD2025
    (bundle false (Some 80) (Some 60) (Some 7) (Some 10) (Some 2.6) None
       None None None None None None) in
  gradeLabel r = "Normal DF" /\ badgeTone r = green
  /\ EA (derived r) = Some 1.33
  /\ eAvg (derived r) = Some 8.5
  /\ EeAvg (derived r) = Some 9.41
  /\ ruleTrace r = ["Top markers abnormal: 0/3"] /\ missing r = [].
Proof. vm_compute. repeat split; reflexivity. Qed.

(** With E=90, A=130, septal e′=5 and lateral e′=6 the average e′ is 5.5 and
    E/average-e′ is 16.36, so two top markers are abnormal and, without a
    confirmatory variable, the grade is Indeterminate. *)
Example sinus_two_markers_example :
  let r := computeDD2025
    (bundle false (Some 90) (Some 130) (Some 5) (Some 6) None None
       None None None None None None) in
  gradeLabel r = "Indeterminate" /\ badgeTone r = amber
  /\ EA (derived r) = Some 0.69
  /\ EeAvg (derived r) = Some 16.36
  /\ ruleTrace r = ["Top markers abnormal: 2/3"; "No confirmatory variables available"].
Proof. vm_compute. repeat split; reflexivity. Qed.

Example sinus_grade1_example :
  let r := computeDD2025
    (bundle false (Some 50) (Some 100) (Some 5) (Some 6) None None
       None None None None None None) in
  gradeLabel r = "Grade 1" /\ badgeTone r = blue
  /\ EA (derived r) = Some 0.5
  /\ ruleTrace r = ["Top markers abnormal: 1/3"; "Reduced e′ only branch"].
Proof. vm_compute. repeat split; reflexivity. Qed.

Example af_tally4_example :
  let r := computeDD2025
    (bundle true (Some 110) None (Some 8) None (Some 3.0) None
       None None None None (Some 140) None) in
  AF.count (bundle true (Some 110) None (Some 8) None (Some 3.0) None
       None None None None (Some 140) None) = 4%nat
  /\ gradeLabel r = "Elevated LAP" /\ badgeTone r = red
  /\ ruleTrace r = ["AF criteria positive: 4/4"].
Proof. vm_compute. repeat split; reflexivity. Qed.

Example af_tiebreak_example :
  let r := computeDD2025
    (bundle true (Some 95) None (Some 9) None (Some 3.0) None
       None (Some 10) (Some 0.8) None (Some 140) (Some 25)) in
  gradeLabel r = "Elevated LAP" /\ badgeTone r = red
  /\ ruleTrace r = ["AF criteria positive: 2/4"; "Secondary criteria positive: 2/3"].
Proof. vm_compute. repeat split; reflexivity. Qed.

(** The helpers on binary64 values: the product by 100 is rounded before
    [Math.round] sees it, and a quotient can overflow. *)
Example helpers_binary64_values :
  safeDiv (Some 46) (Some 80) = Some 0.57
  /\ safeDiv (Some 78.204) (Some 39.2) = Some 1.99
  /\ safeDiv (Some 32.361) (Some 40.2) = Some 0.8
  /\ avg2 (Some 5.01) (Some 5.02) = Some 5.01
  /\ safeDiv (Some 1e308) (Some 1e-308) = Some infinity
  /\ (11 <? 112.2 / 10.2) = true.
Proof. vm_compute. repeat split; reflexivity. Qed.

(** [Math.round] at ties, near one half and at the zeros. *)
Example Math_round_values :
  JS.Math_round 2.5 = 3 /\ JS.Math_round (-2.5) = -2
  /\ JS.Math_round 0.49999999999999994 = 0
  /\ JS.Math_round (-0.2) = neg_zero /\ JS.Math_round (-0.5) = neg_zero
  /\ JS.Math_round 57.49999999999999 = 57
  /\ JS.Math_round 4503599627370495.5 = 4503599627370496
  /\ JS.Math_round 1e300 = 1e300
  /\ JS.Math_round infinity = infinity /\ JS.Math_round nan = nan.
Proof. vm_compute. repeat split; reflexivity. Qed.

(** ** Comparisons and guards *)

Lemma present_and_true_iff (o : option float) (p : float -> bool) :
  JS.present_and o p = true <-> exists v, o = Some v /\ p v = true.
Proof.
  destruct o as [v|]; simpl; split.
  - intros H. exists v. split; [reflexivity | exact H].
  - intros [w [Hw Hp]]. injection Hw as ->. exact Hp.
  - discriminate.
  - intros [w [Hw _]]. discriminate.
Qed.

Lemma SFcompare_antisym (x y : spec_float) :
  SFcompare y x = option_map CompOpp (SFcompare x y).
Proof.
  destruct x as [sx|sx| |sx mx ex], y as [sy|sy| |sy my ey]; simpl;
    try reflexivity;
    try (destruct sx; reflexivity); try (destruct sy; reflexivity);
    try (destruct sx, sy; reflexivity).
  destruct sx, sy; simpl; try reflexivity;
    rewrite (Z.compare_antisym ex ey);
    destruct (ex ?= ey)%Z; simpl; try reflexivity;
    rewrite (Pos.compare_cont_antisym mx my Eq); simpl; reflexivity.
Qed.

Lemma lt_not_ge (x y : float) : (x <? y) = true -> (y <=? x) = false.
Proof.
  rewrite FloatAxioms.ltb_spec, FloatAxioms.leb_spec. unfold SFltb, SFleb.
  rewrite (SFcompare_antisym (Prim2SF x) (Prim2SF y)).
  destruct (SFcompare (Prim2SF x) (Prim2SF y)) as [[]|]; simpl; congruence.
Qed.

Lemma lt_le (x y : float) : (x <? y) = true -> (x <=? y) = true.
Proof.
  rewrite FloatAxioms.ltb_spec, FloatAxioms.leb_spec. unfold SFltb, SFleb.
  destruct (SFcompare (Prim2SF x) (Prim2SF y)) as [[]|]; congruence.
Qed.

(** [x <= c] implies [x <= c'] for two positive doubles [c <= c'] of the same
    exponent. *)
Lemma le_widen (x : float) (m m' : positive) (e : Z) (c c' : float) :
  Prim2SF c = S754_finite false m e -> Prim2SF c' = S754_finite false m' e ->
  (m <= m')%positive ->
  (x <=? c) = true -> (x <=? c') = true.
Proof.
  intros Hc Hc' Hm. rewrite !FloatAxioms.leb_spec, Hc, Hc'. unfold SFleb.
  destruct (Prim2SF x) as [sx|sx| |sx mx ex]; simpl; try congruence.
  - destruct sx; simpl; try congruence.
    destruct (ex ?= e)%Z; try congruence.
    rewrite !Pos.compare_cont_spec. simpl.
    destruct (Pos.compare_spec mx m) as [H|H|H]; simpl; intros Hx; try discriminate;
    destruct (Pos.compare_spec mx m') as [H'|H'|H']; simpl; try reflexivity; lia.
Qed.

Lemma add_comm (x y : float) : x + y = y + x.
Proof.
  apply Prim2SF_inj. rewrite !add_spec. unfold SF64add, SFadd.
  destruct (Prim2SF x) as [sx|sx| |sx mx ex], (Prim2SF y) as [sy|sy| |sy my ey];
    try reflexivity; try (destruct sx, sy; reflexivity).
  rewrite (Z.min_comm ey ex), Z.add_comm. reflexivity.
Qed.

(** ** What every result carries *)

Lemma sinus_derived (x : DDInputs) :
  derived (Sinus.computeSinus x)
  = mkDerived (Sinus.EA x) (Sinus.eAvg x) (Sinus.EeAvg x).
Proof.
  unfold Sinus.computeSinus, Sinus.confirmLAP, Sinus.gradeElevated.
  repeat match goal with
         | |- context [if ?c then _ else _] => destruct c
         | |- context [match ?c with Some _ => _ | None => _ end] =>
             destruct c eqn:?
         end; reflexivity.
Qed.

Lemma af_derived (x : DDInputs) :
  derived (AF.computeAF x) = mkDerived None (AF.eAvg x) (AF.EeAvg x).
Proof.
  unfold AF.computeAF.
  repeat match goal with
         | |- context [if ?c then _ else _] => destruct c
         end; reflexivity.
Qed.

Lemma sinus_missing (x : DDInputs) :
  missing (Sinus.computeSinus x) = Sinus.missing x.
Proof.
  unfold Sinus.computeSinus, Sinus.confirmLAP, Sinus.gradeElevated.
  repeat match goal with
         | |- context [if ?c then _ else _] => destruct c
         | |- context [match ?c with Some _ => _ | None => _ end] => destruct c
         end; reflexivity.
Qed.

Lemma af_missing (x : DDInputs) :
  missing (AF.computeAF x) = AF.missing x.
Proof.
  unfold AF.computeAF.
  repeat match goal with
         | |- context [if ?c then _ else _] => destruct c
         end; reflexivity.
Qed.

(** ** Sinus rhythm *)

Lemma nAbn_zero_iff (x : DDInputs) :
  Sinus.nAbn x = 0%nat
  <-> Sinus.reducedE x = false /\ Sinus.highEe x = false /\ Sinus.highTR x = false.
Proof.
  unfold Sinus.nAbn.
  destruct (Sinus.reducedE x), (Sinus.highEe x), (Sinus.highTR x); simpl;
    split; intros H; try discriminate; try (repeat split; reflexivity);
    destruct H as [H1 [H2 H3]]; discriminate.
Qed.

Lemma nAbn_eqb_false (x : DDInputs) :
  Sinus.reducedE x || Sinus.highEe x || Sinus.highTR x = true ->
  Nat.eqb (Sinus.nAbn x) 0 = false.
Proof.
  intros H. apply Nat.eqb_neq. intros H0. apply nAbn_zero_iff in H0.
  destruct H0 as [H1 [H2 H3]]. rewrite H1, H2, H3 in H. discriminate.
Qed.

(** Past the all-normal exit and the Grade-1 exit, [computeSinus] is the
    confirmation stage, entered with the trace of the stages before it. *)
Lemma sinus_reaches_confirm (x : DDInputs) :
  Sinus.reducedE x || Sinus.highEe x || Sinus.highTR x = true ->
  Sinus.reducedE x && negb (Sinus.highEe x) && negb (Sinus.highTR x)
    && Sinus.lowEA x = false ->
  exists trace, Sinus.computeSinus x = Sinus.confirmLAP x trace.
Proof.
  intros Htop Hg1. unfold Sinus.computeSinus.
  rewrite (nAbn_eqb_false x Htop).
  destruct (Sinus.reducedE x && negb (Sinus.highEe x) && negb (Sinus.highTR x)).
  - simpl in Hg1. rewrite Hg1. eexists. reflexivity.
  - eexists. reflexivity.
Qed.

(** C5. In sinus mode, when the three top markers (reduced e′, high
    E/average-e′, high right-heart pressure) are all false, the grade is
    "Normal DF" with tone green, and it stays so whatever values, present or
    absent, replace the confirmatory inputs PV S/D, LARS, LAVI and IVRT. *)
Theorem sinus_all_normal (x : DDInputs) (pv ls la iv : option float) :
  isAF x = false ->
  Sinus.reducedE x = false -> Sinus.highEe x = false -> Sinus.highTR x = false ->
  let r := computeDD2025 x in
  let r' := computeDD2025 (setConfirmatory x pv ls la iv) in
  (gradeLabel r = "Normal DF" /\ badgeTone r = green)
  /\ (gradeLabel r' = "Normal DF" /\ badgeTone r' = green).
Proof.
  intros Hmode Hr He Ht.
  assert (Hgo : forall y, isAF y = false -> Sinus.nAbn y = 0%nat ->
            gradeLabel (computeDD2025 y) = "Normal DF"
            /\ badgeTone (computeDD2025 y) = green).
  { intros y Hy Hn. unfold computeDD2025. rewrite Hy.
    unfold Sinus.computeSinus. rewrite Hn. simpl. split; reflexivity. }
  assert (Hn : Sinus.nAbn x = 0%nat) by (apply nAbn_zero_iff; auto).
  split.
  - apply Hgo; assumption.
  - apply Hgo; [exact Hmode|].
    change (Sinus.nAbn (setConfirmatory x pv ls la iv)) with (Sinus.nAbn x).
    exact Hn.
Qed.

Lemma sinus_all_normal_witness :
  (gradeLabel (computeDD2025 normalBundle) = "Normal DF"
   /\ badgeTone (computeDD2025 normalBundle) = green)
  /\ (gradeLabel (computeDD2025 (setConfirmatory normalBundle None None None None))
      = "Normal DF"
      /\ badgeTone (computeDD2025 (setConfirmatory normalBundle None None None None))
         = green).
Proof.
  apply (sinus_all_normal normalBundle None None None None); reflexivity.
Defined.

(** C1. In sinus mode, for a bundle that reaches the grading stage under
    elevated LAP (a top marker is true, the Grade-1 exit is not taken, a
    confirmatory variable is present and the LAP disjunction is true): without
    E/A the grade is "Increased LAP (grade unknown)"; with E/A >= 2, 2.00
    included, it is "Grade 3"; with E/A < 2 it is "Grade 2"; the tone is red in
    the three cases. *)
Theorem sinus_elevated_grade (x : DDInputs) :
  isAF x = false ->
  Sinus.reducedE x || Sinus.highEe x || Sinus.highTR x = true ->
  Sinus.reducedE x && negb (Sinus.highEe x) && negb (Sinus.highTR x)
    && Sinus.lowEA x = false ->
  Sinus.anyConfirmAvailable x = true ->
  Sinus.lap x = true ->
  let r := computeDD2025 x in
  EA (derived r) = Sinus.EA x
  /\ (Sinus.EA x = None ->
      gradeLabel r = "Increased LAP (grade unknown)" /\ badgeTone r = red)
  /\ (forall v, Sinus.EA x = Some v -> (2 <=? v) = true ->
      gradeLabel r = "Grade 3" /\ badgeTone r = red)
  /\ (forall v, Sinus.EA x = Some v -> (v <? 2) = true ->
      gradeLabel r = "Grade 2" /\ badgeTone r = red).
Proof.
  intros Hmode Htop Hg1 Hav Hlap r. subst r.
  unfold computeDD2025. rewrite Hmode.
  split; [rewrite sinus_derived; reflexivity|].
  destruct (sinus_reaches_confirm x Htop Hg1) as [trace ->].
  unfold Sinus.confirmLAP, Sinus.gradeElevated. rewrite Hav, Hlap. simpl.
  split; [|split].
  - intros ->. split; reflexivity.
  - intros v -> Hv. unfold JS.ge. rewrite Hv. split; reflexivity.
  - intros v -> Hv. unfold JS.ge. rewrite (lt_not_ge v 2 Hv). split; reflexivity.
Qed.

Lemma sinus_elevated_grade_witness :
  EA (derived (computeDD2025 grade3Bundle)) = Some 2
  /\ gradeLabel (computeDD2025 grade3Bundle) = "Grade 3"
  /\ badgeTone (computeDD2025 grade3Bundle) = red.
Proof.
  split; [reflexivity|].
  apply (proj1 (proj2 (proj2
    (sinus_elevated_grade grade3Bundle eq_refl eq_refl eq_refl eq_refl eq_refl)))
    2 eq_refl).
  reflexivity.
Defined.

(** C3. In sinus mode, when reduced e′ is the only true top marker: with
    E/A present and <= 0.8 the result is "Grade 1" with tone blue; with E/A
    absent or > 0.8 the engine does not return there: the trace records the
    branch and the result is the one of the confirmation stage, which opens
    with the confirmatory-availability check, and is never "Grade 1". *)
Theorem sinus_reduced_e_only (x : DDInputs) :
  isAF x = false ->
  Sinus.reducedE x = true -> Sinus.highEe x = false -> Sinus.highTR x = false ->
  let r := computeDD2025 x in
  (forall v, Sinus.EA x = Some v -> (v <=? 0.8) = true ->
     gradeLabel r = "Grade 1" /\ badgeTone r = blue)
  /\ (Sinus.EA x = None \/ (exists v, Sinus.EA x = Some v /\ (0.8 <? v) = true) ->
      r = Sinus.confirmLAP x ["Top markers abnormal: 1/3"; "Reduced e′ only branch"]
      /\ gradeLabel r <> "Grade 1").
Proof.
  intros Hmode Hr He Ht r. subst r. unfold computeDD2025. rewrite Hmode.
  unfold Sinus.computeSinus, Sinus.nAbn, Sinus.lowEA. rewrite Hr, He, Ht. simpl.
  split.
  - intros v -> Hv. simpl. unfold JS.le. rewrite Hv.
    split; reflexivity.
  - intros Hea.
    assert (Hlow : JS.present_and (Sinus.EA x) (fun v => JS.le v 0.8) = false).
    { destruct Hea as [-> | [v [-> Hv]]]; simpl.
      - reflexivity.
      - apply lt_not_ge. exact Hv. }
    rewrite Hlow. split; [reflexivity|].
    unfold Sinus.confirmLAP, Sinus.gradeElevated.
    repeat match goal with
           | |- context [if ?c then _ else _] => destruct c
           | |- context [match ?c with Some _ => _ | None => _ end] => destruct c
           end; simpl; discriminate.
Qed.

Lemma sinus_reduced_e_only_witness :
  (gradeLabel (computeDD2025 grade1Bundle) = "Grade 1"
   /\ badgeTone (computeDD2025 grade1Bundle) = blue)
  /\ computeDD2025 fallThroughBundle
     = Sinus.confirmLAP fallThroughBundle
         ["Top markers abnormal: 1/3"; "Reduced e′ only branch"].
Proof.
  split.
  - apply (proj1 (sinus_reduced_e_only grade1Bundle eq_refl eq_refl eq_refl eq_refl)
             0.5 eq_refl).
    reflexivity.
  - apply (proj2 (sinus_reduced_e_only fallThroughBundle
                    eq_refl eq_refl eq_refl eq_refl)).
    right. exists 1.33. split; reflexivity.
Defined.

Lemma anyConfirmAvailable_false_iff (x : DDInputs) :
  Sinus.anyConfirmAvailable x = false
  <-> pvSD x = None /\ lars x = None /\ lavi x = None /\ ivrt x = None.
Proof.
  unfold Sinus.anyConfirmAvailable.
  destruct (pvSD x), (lars x), (lavi x), (ivrt x); simpl; split; intros H;
    try discriminate; try (repeat split; reflexivity);
    destruct H as [H1 [H2 [H3 H4]]]; discriminate.
Qed.

Lemma lap_true_iff (x : DDInputs) :
  Sinus.lap x = true
  <-> (exists v, pvSD x = Some v /\ (v <=? 0.67) = true)
      \/ (exists v, lars x = Some v /\ (v <=? 18) = true)
      \/ (exists v, lavi x = Some v /\ (34 <? v) = true)
      \/ (exists v, ivrt x = Some v /\ (v <=? 70) = true).
Proof.
  unfold Sinus.lap. rewrite !orb_true_iff, !present_and_true_iff.
  unfold JS.le, JS.gt. tauto.
Qed.

(** C4. In sinus mode, for a bundle with a true top marker that does not
    take the Grade-1 exit: when PV S/D, LARS, LAVI and IVRT are all absent the
    grade is "Indeterminate" with tone amber; otherwise the trace ends with the
    outcome of LAP elevated = (PV S/D <= 0.67) or (LARS <= 18) or (LAVI > 34)
    or (IVRT <= 70), each disjunct read only when its input is present, and
    when that outcome is false the grade is "Indeterminate" with tone amber. *)
Theorem sinus_confirmation (x : DDInputs) :
  isAF x = false ->
  Sinus.reducedE x || Sinus.highEe x || Sinus.highTR x = true ->
  Sinus.reducedE x && negb (Sinus.highEe x) && negb (Sinus.highTR x)
    && Sinus.lowEA x = false ->
  let r := computeDD2025 x in
  (pvSD x = None /\ lars x = None /\ lavi x = None /\ ivrt x = None ->
     gradeLabel r = "Indeterminate" /\ badgeTone r = amber)
  /\ (Sinus.lap x = true
      <-> (exists v, pvSD x = Some v /\ (v <=? 0.67) = true)
          \/ (exists v, lars x = Some v /\ (v <=? 18) = true)
          \/ (exists v, lavi x = Some v /\ (34 <? v) = true)
          \/ (exists v, ivrt x = Some v /\ (v <=? 70) = true))
  /\ (~ (pvSD x = None /\ lars x = None /\ lavi x = None /\ ivrt x = None) ->
      List.last (ruleTrace r) ""
      = (if Sinus.lap x then "LAP elevated" else "LAP not elevated")
      /\ (Sinus.lap x = false ->
          gradeLabel r = "Indeterminate" /\ badgeTone r = amber)).
Proof.
  intros Hmode Htop Hg1 r. subst r. unfold computeDD2025. rewrite Hmode.
  destruct (sinus_reaches_confirm x Htop Hg1) as [trace ->].
  unfold Sinus.confirmLAP. split; [|split].
  - intros Hnone. apply anyConfirmAvailable_false_iff in Hnone.
    rewrite Hnone. simpl. split; reflexivity.
  - apply lap_true_iff.
  - intros Hsome.
    assert (Hav : Sinus.anyConfirmAvailable x = true).
    { destruct (Sinus.anyConfirmAvailable x) eqn:Hav; [reflexivity|].
      apply anyConfirmAvailable_false_iff in Hav. contradiction. }
    rewrite Hav. simpl. unfold JS.push.
    destruct (Sinus.lap x); simpl.
    + split; [|discriminate]. unfold Sinus.gradeElevated.
      destruct (Sinus.EA x) as [ea|]; [destruct (JS.ge ea 2)|];
        simpl; apply last_last.
    + split; [apply last_last|]. intros _. split; reflexivity.
Qed.

Lemma sinus_confirmation_witness :
  (gradeLabel (computeDD2025 fallThroughBundle) = "Indeterminate"
   /\ badgeTone (computeDD2025 fallThroughBundle) = amber)
  /\ List.last (ruleTrace (computeDD2025 notConfirmedBundle)) "" = "LAP not elevated"
  /\ gradeLabel (computeDD2025 notConfirmedBundle) = "Indeterminate"
  /\ badgeTone (computeDD2025 notConfirmedBundle) = amber.
Proof.
  split.
  - apply (proj1 (sinus_confirmation fallThroughBundle eq_refl eq_refl eq_refl)).
    repeat split; reflexivity.
  - assert (Hsome : ~ (pvSD notConfirmedBundle = None
                       /\ lars notConfirmedBundle = None
                       /\ lavi notConfirmedBundle = None
                       /\ ivrt notConfirmedBundle = None)).
    { intros [_ [H _]]. discriminate H. }
    destruct (proj2 (proj2 (sinus_confirmation notConfirmedBundle
                              eq_refl eq_refl eq_refl)) Hsome) as [Hlast Hgrade].
    split; [exact Hlast | exact (Hgrade eq_refl)].
Defined.

(** ** Atrial fibrillation *)

Lemma af_count_sum (x : DDInputs) :
  AF.count x
  = (b2n (AF.critE x) + b2n (AF.critEe x) + b2n (AF.critTR x) + b2n (AF.critDT x))%nat.
Proof.
  unfold AF.count.
  destruct (AF.critE x), (AF.critEe x), (AF.critTR x), (AF.critDT x); reflexivity.
Qed.

Lemma af_secAvail_sum (x : DDInputs) :
  AF.secAvail x
  = (b2n (negb (JS.is_null (lars x))) + b2n (negb (JS.is_null (pvSD x)))
     + b2n (negb (JS.is_null (bmi x))))%nat.
Proof.
  unfold AF.secAvail, AF.secPair, AF.secondary.
  destruct (lars x), (pvSD x), (bmi x); reflexivity.
Qed.

Lemma af_sec_sum (x : DDInputs) :
  AF.sec x
  = (b2n (JS.present_and (lars x) (fun v => JS.lt v 18%float))
     + b2n (JS.present_and (pvSD x) (fun v => JS.lt v 1%float))
     + b2n (JS.present_and (bmi x) (fun v => JS.gt v 30%float)))%nat.
Proof.
  unfold AF.sec, AF.secPair, AF.secondary.
  destruct (lars x) as [a|], (pvSD x) as [b|], (bmi x) as [c|];
    cbn [JS.present_and fst snd];
    repeat match goal with
           | |- context [JS.lt ?u ?v] => destruct (JS.lt u v)
           | |- context [JS.gt ?u ?v] => destruct (JS.gt u v)
           end; reflexivity.
Qed.

Lemma af_critEe_iff (x : DDInputs) :
  AF.critEe x = true
  <-> exists e s, E x = Some e /\ eSeptal x = Some s /\ (s =? 0) = false
                  /\ (11 <? e / s) = true.
Proof.
  unfold AF.critEe. rewrite present_and_true_iff. split.
  - intros [e [He H]]. apply present_and_true_iff in H. destruct H as [s [Hs H]].
    apply andb_true_iff in H. destruct H as [Hz Hgt].
    exists e, s. repeat split; try assumption.
    apply negb_true_iff in Hz. exact Hz.
  - intros [e [s [He [Hs [Hz Hgt]]]]]. exists e. split; [exact He|].
    apply present_and_true_iff. exists s. split; [exact Hs|].
    apply andb_true_iff. split.
    + apply negb_true_iff. exact Hz.
    + exact Hgt.
Qed.

(** C2. In AF mode the engine tallies four primary criteria, each counted
    only when its inputs are present: mitral E >= 100; septal E/e′, computed
    as E divided by a present non-zero septal e′, > 11; TR Vmax > 2.8 or
    PASP > 35; DT <= 160.  A tally <= 1 gives "Normal LAP", green; a tally >= 3
    gives "Elevated LAP", red; a tally of 2 is settled by the present ones of
    LARS < 18, PV S/D < 1, BMI > 30: none available gives "Indeterminate",
    amber; at least two positive gives "Elevated LAP", red; none positive (of
    at least one available) gives "Normal LAP", green; exactly one positive
    gives "Indeterminate", amber. *)
Theorem af_grading (x : DDInputs) :
  isAF x = true ->
  let r := computeDD2025 x in
  (AF.critE x = true <-> exists e, E x = Some e /\ (100 <=? e) = true)
  /\ (AF.critEe x = true
      <-> exists e s, E x = Some e /\ eSeptal x = Some s /\ (s =? 0) = false
                      /\ (11 <? e / s) = true)
  /\ (AF.critTR x = true
      <-> (exists v, trVmax x = Some v /\ (2.8 <? v) = true)
          \/ (exists v, pasp x = Some v /\ (35 <? v) = true))
  /\ (AF.critDT x = true <-> exists v, dt x = Some v /\ (v <=? 160) = true)
  /\ AF.count x
     = (b2n (AF.critE x) + b2n (AF.critEe x) + b2n (AF.critTR x)
        + b2n (AF.critDT x))%nat
  /\ ((AF.count x <= 1)%nat ->
      gradeLabel r = "Normal LAP" /\ badgeTone r = green)
  /\ ((3 <= AF.count x)%nat ->
      gradeLabel r = "Elevated LAP" /\ badgeTone r = red)
  /\ (AF.count x = 2%nat ->
      AF.secAvail x
      = (b2n (negb (JS.is_null (lars x))) + b2n (negb (JS.is_null (pvSD x)))
         + b2n (negb (JS.is_null (bmi x))))%nat
      /\ AF.sec x
         = (b2n (JS.present_and (lars x) (fun v => JS.lt v 18%float))
            + b2n (JS.present_and (pvSD x) (fun v => JS.lt v 1%float))
            + b2n (JS.present_and (bmi x) (fun v => JS.gt v 30%float)))%nat
      /\ (AF.secAvail x = 0%nat ->
          gradeLabel r = "Indeterminate" /\ badgeTone r = amber)
      /\ ((2 <= AF.sec x)%nat ->
          gradeLabel r = "Elevated LAP" /\ badgeTone r = red)
      /\ (AF.secAvail x <> 0%nat -> AF.sec x = 0%nat ->
          gradeLabel r = "Normal LAP" /\ badgeTone r = green)
      /\ (AF.sec x = 1%nat ->
          gradeLabel r = "Indeterminate" /\ badgeTone r = amber)).
Proof.
  intros Hmode r. subst r. unfold computeDD2025. rewrite Hmode.
  split; [|split; [|split; [|split; [|split; [|split; [|split]]]]]].
  - unfold AF.critE. rewrite present_and_true_iff. reflexivity.
  - apply af_critEe_iff.
  - unfold AF.critTR. rewrite orb_true_iff, !present_and_true_iff. reflexivity.
  - unfold AF.critDT. rewrite present_and_true_iff. reflexivity.
  - apply af_count_sum.
  - intros Hc. unfold AF.computeAF.
    apply Nat.leb_le in Hc. rewrite Hc. split; reflexivity.
  - intros Hc. unfold AF.computeAF.
    assert (H1 : Nat.leb (AF.count x) 1 = false) by (apply Nat.leb_gt; lia).
    apply Nat.leb_le in Hc. rewrite H1, Hc. split; reflexivity.
  - intros Hc. split; [apply af_secAvail_sum|]. split; [apply af_sec_sum|].
    assert (Hsec : (AF.sec x <= AF.secAvail x)%nat).
    { rewrite af_sec_sum, af_secAvail_sum.
      destruct (lars x), (pvSD x), (bmi x); cbn [JS.present_and JS.is_null negb];
        repeat match goal with
               | |- context [JS.lt ?u ?v] => destruct (JS.lt u v)
               | |- context [JS.gt ?u ?v] => destruct (JS.gt u v)
               end; simpl; lia. }
    unfold AF.computeAF. rewrite Hc.
    change (Nat.leb 2 1) with false. change (Nat.leb 3 2) with false. cbv iota.
    split; [|split; [|split]].
    + intros Ha. rewrite Ha. simpl. split; reflexivity.
    + intros Hs.
      assert (Ha : Nat.eqb (AF.secAvail x) 0 = false) by (apply Nat.eqb_neq; lia).
      apply Nat.leb_le in Hs. rewrite Ha, Hs. split; reflexivity.
    + intros Ha Hs. apply Nat.eqb_neq in Ha. rewrite Ha, Hs. simpl.
      split; reflexivity.
    + intros Hs.
      assert (Ha : Nat.eqb (AF.secAvail x) 0 = false) by (apply Nat.eqb_neq; lia).
      rewrite Ha, Hs. simpl. split; reflexivity.
Qed.

Lemma af_grading_witness :
  (AF.count afTieBundle = 2%nat /\ AF.sec afTieBundle = 2%nat
   /\ gradeLabel (computeDD2025 afTieBundle) = "Elevated LAP"
   /\ badgeTone (computeDD2025 afTieBundle) = red)
  /\ (AF.critEe afQuotientBundle = true
      /\ AF.count afQuotientBundle = 2%nat
      /\ gradeLabel (computeDD2025 afQuotientBundle) = "Indeterminate"
      /\ badgeTone (computeDD2025 afQuotientBundle) = amber).
Proof.
  split.
  - split; [reflexivity|]. split; [reflexivity|].
    destruct (af_grading afTieBundle eq_refl)
      as [_ [_ [_ [_ [_ [_ [_ Htie]]]]]]].
    destruct (Htie eq_refl) as [_ [_ [_ [Hel _]]]].
    apply Hel. apply le_n.
  - destruct (af_grading afQuotientBundle eq_refl)
      as [_ [HEe [_ [_ [_ [_ [_ Htie]]]]]]].
    split.
    + apply HEe. exists 112.2, 10.2. repeat split; reflexivity.
    + split; [reflexivity|].
      destruct (Htie eq_refl) as [_ [_ [Hind _]]].
      apply Hind. reflexivity.
Defined.

(** C8. In AF mode the derived E/A of the result is null for every bundle. *)
Theorem af_EA_null (x : DDInputs) :
  isAF x = true -> EA (derived (computeDD2025 x)) = None.
Proof.
  intros Hmode. unfold computeDD2025. rewrite Hmode. unfold AF.computeAF.
  repeat match goal with
         | |- context [if ?c then _ else _] => destruct c
         end; reflexivity.
Qed.

Lemma af_EA_null_witness :
  A afTally4Bundle = Some 70 /\ EA (derived (computeDD2025 afTally4Bundle)) = None.
Proof. split; [reflexivity | apply (af_EA_null afTally4Bundle); reflexivity]. Defined.

(** ** Both modes *)

(** C10. In either mode the tone of the result is green, blue, amber or red:
    the engine never produces gray. *)
Theorem tone_never_gray (x : DDInputs) :
  In (badgeTone (computeDD2025 x)) [green; blue; amber; red]
  /\ badgeTone (computeDD2025 x) <> gray.
Proof.
  unfold computeDD2025, AF.computeAF, Sinus.computeSinus, Sinus.confirmLAP,
    Sinus.gradeElevated.
  repeat match goal with
         | |- context [if ?c then _ else _] => destruct c
         | |- context [match ?c with Some _ => _ | None => _ end] => destruct c
         end; simpl; split; try discriminate; tauto.
Qed.

(** ** The missing-input list *)

Lemma sinus_missing_iff (x : DDInputs) (s : string) :
  In s (Sinus.missing x)
  <-> (s = "Mitral E (cm/s)" /\ E x = None)
      \/ (s = "Mitral A (cm/s) (needed for E/A)" /\ A x = None)
      \/ (s = "Septal and/or lateral e′ (cm/s)"
          /\ eSeptal x = None /\ eLateral x = None).
Proof.
  unfold Sinus.missing.
  destruct (E x), (A x), (eSeptal x), (eLateral x); simpl;
    intuition (try discriminate; auto).
Qed.

Lemma af_missing_iff (x : DDInputs) (s : string) :
  In s (AF.missing x)
  <-> (s = "Mitral E (cm/s)" /\ E x = None)
      \/ (s = "Septal e′ (cm/s) (for septal E/e′)" /\ eSeptal x = None)
      \/ (s = "TR Vmax (m/s) or PASP (mmHg)"
          /\ trVmax x = None /\ pasp x = None)
      \/ (s = "DT (ms)" /\ dt x = None).
Proof.
  unfold AF.missing.
  destruct (E x), (eSeptal x), (trVmax x), (pasp x), (dt x); simpl;
    intuition (try discriminate; auto).
Qed.

(** C9, the claim as worded fails.  In sinus mode, with E, A and both e′
    measured and nothing else, the engine answers "Indeterminate" for want of a
    confirmatory variable, and yet its missing-input list is empty: IVRT (like
    PV S/D, LARS, LAVI, TR Vmax and PASP) is absent, is read by the sinus
    algorithm, and no advisory names it.  Likewise a lateral e′ that is absent
    next to a present septal e′ is not reported. *)
Lemma missing_omits_relevant_field :
  (isAF fallThroughBundle = false
   /\ gradeLabel (computeDD2025 fallThroughBundle) = "Indeterminate"
   /\ relevant false fIvrt = true
   /\ field fIvrt fallThroughBundle = None
   /\ missing (computeDD2025 fallThroughBundle) = []
   /\ ~ reports_every_absent_relevant_field fallThroughBundle)
  /\ (isAF singleEBundle = false
      /\ relevant false fELateral = true
      /\ field fELateral singleEBundle = None
      /\ missing (computeDD2025 singleEBundle) = []
      /\ ~ reports_every_absent_relevant_field singleEBundle).
Proof.
  repeat split.
  - intros H. destruct (H fIvrt eq_refl eq_refl) as [s [Hin _]]. exact Hin.
  - intros H. destruct (H fELateral eq_refl eq_refl) as [s [Hin _]]. exact Hin.
Qed.

(** C9, amended.  In either mode no advisory of the missing-input list names
    a measurement that is present.  The list holds exactly these advisories:
    in sinus mode, mitral E when E is absent, mitral A when A is absent, and
    septal/lateral e′ when both are absent; in AF mode, mitral E when E is
    absent, septal e′ when it is absent, TR Vmax/PASP when both are absent, and
    DT when it is absent.  Other measurements the algorithm reads are not
    reported. *)
Theorem missing_list (x : DDInputs) :
  let m := missing (computeDD2025 x) in
  reports_no_present_field x
  /\ (isAF x = false ->
      forall s, In s m
        <-> (s = "Mitral E (cm/s)" /\ E x = None)
            \/ (s = "Mitral A (cm/s) (needed for E/A)" /\ A x = None)
            \/ (s = "Septal and/or lateral e′ (cm/s)"
                /\ eSeptal x = None /\ eLateral x = None))
  /\ (isAF x = true ->
      forall s, In s m
        <-> (s = "Mitral E (cm/s)" /\ E x = None)
            \/ (s = "Septal e′ (cm/s) (for septal E/e′)" /\ eSeptal x = None)
            \/ (s = "TR Vmax (m/s) or PASP (mmHg)"
                /\ trVmax x = None /\ pasp x = None)
            \/ (s = "DT (ms)" /\ dt x = None)).
Proof.
  intros m. subst m. split; [|split].
  - unfold reports_no_present_field, computeDD2025. intros s f Hs Hf.
    destruct (isAF x).
    + rewrite af_missing in Hs. apply af_missing_iff in Hs.
      destruct Hs as [[-> H] | [[-> H] | [[-> [H1 H2]] | [-> H]]]];
        cbv in Hf; intuition (subst f; assumption).
    + rewrite sinus_missing in Hs. apply sinus_missing_iff in Hs.
      destruct Hs as [[-> H] | [[-> H] | [-> [H1 H2]]]];
        cbv in Hf; intuition (subst f; assumption).
  - intros Hmode s. unfold computeDD2025. rewrite Hmode, sinus_missing.
    apply sinus_missing_iff.
  - intros Hmode s. unfold computeDD2025. rewrite Hmode, af_missing.
    apply af_missing_iff.
Qed.

Lemma missing_list_witness :
  missing (computeDD2025 afEmptyBundle)
  = ["Mitral E (cm/s)"; "Septal e′ (cm/s) (for septal E/e′)";
     "TR Vmax (m/s) or PASP (mmHg)"; "DT (ms)"]
  /\ In "DT (ms)" (missing (computeDD2025 afEmptyBundle))
  /\ field fDt afEmptyBundle = None.
Proof.
  split; [reflexivity|].
  assert (Hin : In "DT (ms)" (missing (computeDD2025 afEmptyBundle))).
  { apply (proj2 (proj2 (missing_list afEmptyBundle)) eq_refl "DT (ms)").
    right. right. right. split; reflexivity. }
  split; [exact Hin|].
  apply (proj1 (missing_list afEmptyBundle) "DT (ms)" fDt Hin).
  left. reflexivity.
Defined.

(** ** Rounding of the two helpers *)

Section ExactRounding.
Local Open Scope Q_scope.

Lemma Qfloor_unique (y : Q) (m : Z) :
  inject_Z m <= y -> y < inject_Z m + 1 -> Qfloor y = m.
Proof.
  intros Hlo Hhi. apply Z.le_antisymm.
  - assert (H : inject_Z (Qfloor y) < inject_Z (m + 1)).
    { rewrite inject_Z_plus. apply Qle_lt_trans with y; [apply Qfloor_le | exact Hhi]. }
    rewrite <- Zlt_Qlt in H. lia.
  - rewrite <- (Qfloor_Z m). apply Qfloor_resp_le. exact Hlo.
Qed.

Lemma floor_half_nearest (x : Q) : nearest_ties_up x (Qfloor (x + (1 # 2))).
Proof.
  split.
  - pose proof (Qlt_floor (x + (1 # 2))) as H. rewrite inject_Z_plus in H.
    change (inject_Z 1) with 1 in H. lra.
  - apply Qfloor_le.
Qed.

Lemma round_half_away_nonneg (x : Q) :
  0 <= x -> round_half_away x = Qfloor (x + (1 # 2)).
Proof.
  intros H. unfold round_half_away. apply Qle_bool_iff in H. rewrite H. reflexivity.
Qed.

Lemma Qle_bool_false_of_lt (x : Q) : x < 0 -> Qle_bool 0 x = false.
Proof.
  intros H. apply not_true_iff_false. rewrite Qle_bool_iff.
  apply Qlt_not_le. exact H.
Qed.

Lemma round_half_away_neg_no_tie (x : Q) :
  x < 0 -> ~ is_tie x -> round_half_away x = Qfloor (x + (1 # 2)).
Proof.
  intros Hneg Htie. unfold round_half_away.
  rewrite (Qle_bool_false_of_lt x Hneg). unfold Qceiling.
  destruct (floor_half_nearest x) as [Hlo Hhi].
  set (n := Qfloor (x + (1 # 2))) in *.
  assert (Hlt : inject_Z n < x + (1 # 2)).
  { apply Qle_lteq in Hhi. destruct Hhi as [Hlt | Heq]; [exact Hlt|].
    exfalso. apply Htie. exact Heq. }
  rewrite (Qfloor_unique (- (x - (1 # 2))) (- n)); [lia | |];
    rewrite inject_Z_opp; lra.
Qed.

Lemma round_half_away_neg_tie (x : Q) :
  x < 0 -> is_tie x -> (round_half_away x + 1)%Z = Qfloor (x + (1 # 2)).
Proof.
  intros Hneg Htie. unfold round_half_away.
  rewrite (Qle_bool_false_of_lt x Hneg). unfold Qceiling.
  unfold is_tie in Htie. set (n := Qfloor (x + (1 # 2))) in *.
  rewrite (Qfloor_unique (- (x - (1 # 2))) (- n + 1)); [lia | |];
    rewrite inject_Z_plus, inject_Z_opp; change (inject_Z 1) with 1; lra.
Qed.

Lemma floor_half_vs_half_away (y : Q) :
  (0 <= y \/ ~ is_tie y -> Qfloor (y + (1 # 2)) = round_half_away y)
  /\ (y < 0 /\ is_tie y -> Qfloor (y + (1 # 2)) = (round_half_away y + 1)%Z).
Proof.
  split.
  - intros [Hpos | Hnt].
    + symmetry. apply round_half_away_nonneg. exact Hpos.
    + destruct (Qlt_le_dec y 0) as [Hneg | Hpos].
      * symmetry. apply round_half_away_neg_no_tie; assumption.
      * symmetry. apply round_half_away_nonneg. exact Hpos.
  - intros [Hneg Ht]. symmetry. apply round_half_away_neg_tie; assumption.
Qed.

End ExactRounding.

Lemma Math_round_finite (y : float) (s : bool) (m : positive) (e : Z) :
  Prim2SF y = S754_finite s m e -> (e < 0)%Z ->
  JS.Math_round y = JS.Z2float s (Qfloor (JS.SF2Q s m e + (1 # 2))%Q).
Proof.
  intros Hy He. unfold JS.Math_round. rewrite Hy.
  assert (Hle : (0 <=? e)%Z = false) by (apply Z.leb_gt; exact He).
  rewrite Hle. reflexivity.
Qed.

Lemma Math_round_half_away_finite (y : float) (s : bool) (m : positive) (e : Z) :
  Prim2SF y = S754_finite s m e -> (e < 0)%Z ->
  Math_round_half_away y = JS.Z2float s (round_half_away (JS.SF2Q s m e)).
Proof.
  intros Hy He. unfold Math_round_half_away. rewrite Hy.
  assert (Hle : (0 <=? e)%Z = false) by (apply Z.leb_gt; exact He).
  rewrite Hle. reflexivity.
Qed.

Lemma Math_round_kept (y : float) :
  kept_by_round y = true -> JS.Math_round y = y.
Proof.
  unfold kept_by_round, JS.Math_round.
  destruct (Prim2SF y) as [s|s| |s m e]; try reflexivity.
  intros ->. reflexivity.
Qed.

Lemma safeDiv_present (a b : float) :
  (b =? 0) = false ->
  safeDiv (Some a) (Some b) = Some (round2 (a / b)).
Proof.
  intros Hb. unfold safeDiv, JS.strict_eq. rewrite Hb. reflexivity.
Qed.

Lemma some_float_neq (u v : float) :
  Prim2SF u <> Prim2SF v -> Some u <> Some v.
Proof.
  intros H Huv. apply H.
  exact (f_equal (fun o => match o with
                           | Some w => Prim2SF w
                           | None => S754_nan
                           end) Huv).
Qed.

(** C6, the claim as worded fails on negative ties.  [safeDiv(-1, 8)] rounds
    -12.5 to -12 and returns -0.12, and [avg2(-0.25, 0)] does the same, where
    rounding half away from zero gives -0.13. *)
Lemma helpers_not_half_away :
  safeDiv (Some (-1)) (Some 8) = Some (-0.12)
  /\ avg2 (Some (-0.25)) (Some 0) = Some (-0.12)
  /\ round2_half_away (-1 / 8) = -0.13
  /\ round2_half_away ((-0.25 + 0) / 2) = -0.13
  /\ safeDiv (Some (-1)) (Some 8) <> Some (round2_half_away (-1 / 8))
  /\ avg2 (Some (-0.25)) (Some 0) <> Some (round2_half_away ((-0.25 + 0) / 2)).
Proof.
  split; [reflexivity|]. split; [reflexivity|].
  split; [reflexivity|]. split; [reflexivity|].
  split; apply some_float_neq; vm_compute; discriminate.
Qed.

(** C6, amended.  For present operands, guarded division (non-zero
    denominator) returns [Math.round((a / b) * 100) / 100] and the two-value
    average [Math.round(((a + b) / 2) * 100) / 100], every operation being the
    binary64 one.  [Math.round] leaves a double that is NaN, infinite, zero or
    of magnitude at least 2^52 as it is, and takes any other double y to the
    integer n nearest to the exact value of y, a tie going to the larger
    integer.  That
    is rounding half away from zero whenever y is not negative or is not a
    tie; at a negative tie the result is the integer above it. *)
Theorem helpers_round_half_up (a b : float) :
  ((b =? 0) = false ->
   safeDiv (Some a) (Some b) = Some (JS.Math_round (a / b * 100) / 100))
  /\ avg2 (Some a) (Some b) = Some (JS.Math_round ((a + b) / 2 * 100) / 100)
  /\ (forall y, kept_by_round y = true -> JS.Math_round y = y)
  /\ (forall y s m e, Prim2SF y = S754_finite s m e -> (e < 0)%Z ->
      let q := JS.SF2Q s m e in
      exists n : Z,
        JS.Math_round y = JS.Z2float s n
        /\ nearest_ties_up q n
        /\ ((0 <= q)%Q \/ ~ is_tie q ->
            n = round_half_away q /\ JS.Math_round y = Math_round_half_away y)
        /\ ((q < 0)%Q /\ is_tie q -> n = (round_half_away q + 1)%Z)).
Proof.
  split; [intros Hb; apply (safeDiv_present a b Hb)|].
  split; [reflexivity|].
  split; [apply Math_round_kept|].
  intros y s m e Hy He q.
  exists (Qfloor (q + (1 # 2))%Q).
  split; [apply (Math_round_finite y s m e Hy He)|].
  split; [apply floor_half_nearest|].
  destruct (floor_half_vs_half_away q) as [Hagree Htie].
  split; [|exact Htie].
  intros Hq. split; [apply Hagree; exact Hq|].
  rewrite (Math_round_finite y s m e Hy He),
    (Math_round_half_away_finite y s m e Hy He).
  fold q. rewrite (Hagree Hq). reflexivity.
Qed.

Lemma helpers_round_half_up_witness :
  safeDiv (Some 1) (Some 8) = Some 0.13
  /\ safeDiv (Some 46) (Some 80) = Some 0.57
  /\ exists n : Z, JS.Math_round 57.49999999999999 = JS.Z2float false n
                   /\ n = 57%Z.
Proof.
  split; [apply (proj1 (helpers_round_half_up 1 8)); reflexivity|].
  split; [apply (proj1 (helpers_round_half_up 46 80)); reflexivity|].
  destruct (proj2 (proj2 (proj2 (helpers_round_half_up 46 80)))
              57.49999999999999 false 8092405580431359%positive (-47)%Z
              eq_refl eq_refl) as [n [Hn [Hnear [Hagree _]]]].
  exists n. split; [exact Hn|].
  assert (Hq : (0 <= JS.SF2Q false 8092405580431359 (-47))%Q) by discriminate.
  rewrite (proj1 (Hagree (or_introl Hq))). reflexivity.
Defined.

(** ** Decimals of the derived values *)

Lemma round2_shape (q : float) :
  (kept_by_round (q * 100) = true /\ round2 q = q * 100 / 100)
  \/ (exists s n, round2 q = JS.Z2float s n / 100).
Proof.
  unfold round2. destruct (Prim2SF (q * 100)) as [s|s| |s m e] eqn:Hy;
    try (left; split;
         [unfold kept_by_round; rewrite Hy; reflexivity
         | rewrite Math_round_kept;
           [reflexivity | unfold kept_by_round; rewrite Hy; reflexivity]]).
  destruct (Z_lt_ge_dec e 0) as [He|He].
  - right. exists s, (Qfloor (JS.SF2Q s m e + (1 # 2))%Q).
    rewrite (Math_round_finite _ s m e Hy He). reflexivity.
  - assert (Hk : kept_by_round (q * 100) = true).
    { unfold kept_by_round. rewrite Hy. apply Z.leb_le. lia. }
    left. split; [exact Hk|]. rewrite (Math_round_kept _ Hk). reflexivity.
Qed.

Lemma safeDiv_cases (a b : option float) :
  safeDiv a b = None
  \/ exists n d, a = Some n /\ b = Some d /\ safeDiv a b = Some (round2 (n / d)).
Proof.
  destruct a as [n|], b as [d|]; simpl; try (left; reflexivity).
  destruct (JS.strict_eq d 0); [left; reflexivity|].
  right. exists n, d. repeat split; reflexivity.
Qed.

(** The derived values of the worked example are numbers of two decimals. *)
Example two_decimals_values :
  two_decimals 1.33 /\ two_decimals 8.5 /\ two_decimals 9.41
  /\ two_decimals 0.57 /\ two_decimals (-0.12).
Proof. repeat split; reflexivity. Qed.

(** C7, the claim as worded fails.  With septal e′ = 7.125 and no lateral
    e′, the derived average e′ is 7.125 itself, which rounding to two decimals
    would change to 7.13.  With E = 1e308 and A = 1e-308 the derived E/A is
    Infinity, which is neither null nor a number of two decimals. *)
Lemma eAvg_passthrough_not_rounded :
  (eAvg (derived (computeDD2025 singleEBundle)) = Some 7.125
   /\ round2 7.125 = 7.13
   /\ ~ null_or_two_decimals (eAvg (derived (computeDD2025 singleEBundle))))
  /\ (EA (derived (computeDD2025 overflowBundle)) = Some infinity
      /\ ~ null_or_two_decimals (EA (derived (computeDD2025 overflowBundle)))).
Proof.
  split.
  - split; [reflexivity|]. split; [reflexivity|].
    change (eAvg (derived (computeDD2025 singleEBundle))) with (Some 7.125).
    intros [_ H]. apply (f_equal Prim2SF) in H. vm_compute in H. discriminate.
  - split; [reflexivity|].
    change (EA (derived (computeDD2025 overflowBundle))) with (Some infinity).
    intros [H _]. vm_compute in H. discriminate.
Qed.

(** C7, amended.  For every bundle and either mode, the derived E/A is null
    or the two-decimal rounding [Math.round(q * 100) / 100] of the binary64
    quotient q = E / A, and the derived E/average-e′ is null or that rounding
    of E / average-e′.  The derived average e′ is that rounding of the mean
    when both septal and lateral e′ are present; it is the single present e′,
    unchanged, when exactly one is present; it is null when both are absent.
    An output of the rounding is a whole number n of hundredths, the binary64
    quotient n / 100, unless q * 100 is NaN, infinite, zero or of magnitude at
    least 2^52, which [Math.round] leaves as it is: the output is then
    (q * 100) / 100, Infinity when the quotient overflowed. *)
Theorem derived_two_decimals (x : DDInputs) :
  let d := derived (computeDD2025 x) in
  (EA d = None
   \/ exists e a, E x = Some e /\ A x = Some a /\ EA d = Some (round2 (e / a)))
  /\ (EeAvg d = None
      \/ exists e v, E x = Some e /\ eAvg d = Some v
                      /\ EeAvg d = Some (round2 (e / v)))
  /\ match eSeptal x, eLateral x with
     | Some s, Some l => eAvg d = Some (round2 ((s + l) / 2))
     | Some s, None => eAvg d = Some s
     | None, Some l => eAvg d = Some l
     | None, None => eAvg d = None
     end
  /\ (forall q,
        (kept_by_round (q * 100) = true /\ round2 q = q * 100 / 100)
        \/ (exists s n, round2 q = JS.Z2float s n / 100)).
Proof.
  intros d. subst d. unfold computeDD2025.
  destruct (isAF x).
  - rewrite af_derived. simpl. split; [left; reflexivity|].
    split; [apply safeDiv_cases|].
    split; [|apply round2_shape].
    unfold AF.eAvg. destruct (eSeptal x) as [s|], (eLateral x) as [l|];
      reflexivity.
  - rewrite sinus_derived. simpl. split; [apply safeDiv_cases|].
    split; [apply safeDiv_cases|].
    split; [|apply round2_shape].
    unfold Sinus.eAvg. destruct (eSeptal x) as [s|], (eLateral x) as [l|];
      reflexivity.
Qed.

(** * Further properties of the engine *)

(** ** Outcomes *)

(** A tactic for the goals that hold on every path of the two algorithms:
    split on each test the code makes. *)
Ltac engine_paths :=
  unfold AF.computeAF, Sinus.computeSinus, Sinus.confirmLAP, Sinus.gradeElevated;
  repeat match goal with
         | |- context [if ?c then _ else _] => destruct c
         | |- context [match ?c with Some _ => _ | None => _ end] => destruct c
         end.

(** X1. The grade and tone of a result form one of the pairs of its mode:
    six pairs in sinus mode, three in AF mode.  No numbered grade is produced
    in AF mode, and no "LAP" label without a grade in sinus mode other than
    "Increased LAP (grade unknown)". *)
Theorem outcome_vocabulary (x : DDInputs) :
  In (gradeLabel (computeDD2025 x), badgeTone (computeDD2025 x))
     (if isAF x then afOutcomes else sinusOutcomes).
Proof.
  unfold computeDD2025. destruct (isAF x); engine_paths; simpl; tauto.
Qed.

(** X2. In both modes the tone is a function of the grade label alone. *)
Theorem tone_follows_label (x : DDInputs) :
  badgeTone (computeDD2025 x) = toneOfLabel (gradeLabel (computeDD2025 x)).
Proof.
  unfold computeDD2025. destruct (isAF x); engine_paths; reflexivity.
Qed.

(** ** The sinus decision table, read backwards *)

Lemma lap_needs_confirmatory (x : DDInputs) :
  Sinus.lap x = true -> Sinus.anyConfirmAvailable x = true.
Proof.
  unfold Sinus.lap, Sinus.anyConfirmAvailable.
  destruct (pvSD x), (lars x), (lavi x), (ivrt x); simpl; auto.
Qed.

Lemma lowEA_needs_EA (x : DDInputs) :
  Sinus.lowEA x = true -> exists v, Sinus.EA x = Some v /\ (v <=? 0.8) = true.
Proof.
  unfold Sinus.lowEA. intros H. apply present_and_true_iff in H. exact H.
Qed.

(** X3. In sinus mode the grade tells which exit was taken: "Normal DF"
    exactly when the three top markers are false; "Grade 1" exactly when
    reduced e′ is the only true marker and E/A is present and <= 0.8. *)
Theorem sinus_early_exits_iff (x : DDInputs) :
  (gradeLabel (Sinus.computeSinus x) = "Normal DF"
   <-> Sinus.reducedE x = false /\ Sinus.highEe x = false
       /\ Sinus.highTR x = false)
  /\ (gradeLabel (Sinus.computeSinus x) = "Grade 1"
      <-> Sinus.reducedE x = true /\ Sinus.highEe x = false
          /\ Sinus.highTR x = false
          /\ exists v, Sinus.EA x = Some v /\ (v <=? 0.8) = true).
Proof.
  split.
  - unfold Sinus.computeSinus, Sinus.nAbn, Sinus.confirmLAP, Sinus.gradeElevated.
    destruct (Sinus.reducedE x), (Sinus.highEe x), (Sinus.highTR x); simpl;
      repeat match goal with
             | |- context [if ?c then _ else _] => destruct c
             | |- context [match ?c with Some _ => _ | None => _ end] => destruct c
             end; simpl; split; intros H; try discriminate;
      try (repeat split; reflexivity);
      destruct H as [H1 [H2 H3]]; discriminate.
  - split.
    + intros H.
      assert (Hb : Sinus.reducedE x = true /\ Sinus.highEe x = false
                   /\ Sinus.highTR x = false /\ Sinus.lowEA x = true).
      { revert H.
        unfold Sinus.computeSinus, Sinus.nAbn, Sinus.confirmLAP, Sinus.gradeElevated.
        destruct (Sinus.reducedE x), (Sinus.highEe x), (Sinus.highTR x),
          (Sinus.lowEA x); simpl;
          repeat match goal with
                 | |- context [if ?c then _ else _] => destruct c
                 | |- context [match ?c with Some _ => _ | None => _ end] =>
                     destruct c
                 end; simpl; intros H; try discriminate;
          repeat split; reflexivity. }
      destruct Hb as [H1 [H2 [H3 H4]]]. repeat split; try assumption.
      apply lowEA_needs_EA. exact H4.
    + intros [H1 [H2 [H3 [v [Hv Hle]]]]].
      unfold Sinus.computeSinus, Sinus.nAbn, Sinus.lowEA.
      rewrite H1, H2, H3, Hv. simpl. unfold JS.le. rewrite Hle.
      reflexivity.
Qed.

(** X4. In sinus mode a red result is given exactly when a top marker is
    true, the Grade-1 exit is not taken and the LAP disjunction is true, which
    needs a confirmatory variable to be present; an amber one exactly when a
    top marker is true, the Grade-1 exit is not taken and the LAP disjunction
    is false. *)
Theorem sinus_red_amber_iff (x : DDInputs) :
  let top := Sinus.reducedE x || Sinus.highEe x || Sinus.highTR x in
  let g1 := Sinus.reducedE x && negb (Sinus.highEe x) && negb (Sinus.highTR x)
            && Sinus.lowEA x in
  (badgeTone (Sinus.computeSinus x) = red
   <-> top = true /\ g1 = false /\ Sinus.lap x = true)
  /\ (badgeTone (Sinus.computeSinus x) = amber
      <-> top = true /\ g1 = false /\ Sinus.lap x = false)
  /\ (badgeTone (Sinus.computeSinus x) = red ->
      Sinus.anyConfirmAvailable x = true).
Proof.
  intros top g1. subst top g1.
  pose proof (lap_needs_confirmatory x) as Hlap. revert Hlap.
  unfold Sinus.computeSinus, Sinus.nAbn, Sinus.confirmLAP, Sinus.gradeElevated.
  destruct (Sinus.reducedE x), (Sinus.highEe x), (Sinus.highTR x),
    (Sinus.lowEA x), (Sinus.anyConfirmAvailable x), (Sinus.lap x); simpl;
    intros Hlap;
    repeat match goal with
           | |- context [if ?c then _ else _] => destruct c
           | |- context [match ?c with Some _ => _ | None => _ end] => destruct c
           end; simpl;
    try (specialize (Hlap eq_refl); discriminate);
    repeat split; intros; try discriminate; try reflexivity;
    repeat match goal with
           | H : _ /\ _ |- _ => destruct H
           end; try discriminate.
Qed.

(** ** What each mode ignores *)

(** X5. The sinus result does not depend on DT or BMI, and the AF result
    does not depend on mitral A, LAVI or IVRT: replacing them, by any value or
    by nothing, leaves the whole result unchanged. *)
Theorem mode_ignores_other_inputs (x : DDInputs) (d b a la iv : option float) :
  Sinus.computeSinus (setAFOnly x d b) = Sinus.computeSinus x
  /\ AF.computeAF (setSinusOnly x a la iv) = AF.computeAF x.
Proof. split; reflexivity. Qed.

(** X6. The strict AF test on right-heart pressure implies the sinus one:
    a bundle positive for TR Vmax > 2.8 or PASP > 35 is also positive for
    TR Vmax >= 2.8 or PASP >= 35.  The converse fails at the cut-point. *)
Theorem af_tr_implies_sinus_tr :
  (forall x, AF.critTR x = true -> Sinus.highTR x = true)
  /\ Sinus.highTR trBoundaryBundle = true
  /\ AF.critTR trBoundaryBundle = false.
Proof.
  split; [|split; reflexivity].
  intros x. unfold AF.critTR, Sinus.highTR.
  rewrite !orb_true_iff, !present_and_true_iff.
  intros [[v [Hv H]] | [v [Hv H]]]; [left | right]; exists v;
    (split; [exact Hv|]); apply lt_le; exact H.
Qed.

(** ** The AF decision table, read backwards *)

Lemma af_sec_bounds (x : DDInputs) :
  (AF.sec x <= AF.secAvail x)%nat /\ (AF.secAvail x <= 3)%nat.
Proof.
  rewrite af_sec_sum, af_secAvail_sum.
  destruct (lars x), (pvSD x), (bmi x); cbn [JS.present_and JS.is_null negb];
    repeat match goal with
           | |- context [JS.lt ?u ?v] => destruct (JS.lt u v)
           | |- context [JS.gt ?u ?v] => destruct (JS.gt u v)
           end; simpl; lia.
Qed.

Lemma af_count_bound (x : DDInputs) : (AF.count x <= 4)%nat.
Proof.
  rewrite af_count_sum.
  destruct (AF.critE x), (AF.critEe x), (AF.critTR x), (AF.critDT x); simpl; lia.
Qed.

(** X7. In AF mode the grade tells the tallies: "Elevated LAP" exactly when
    at least three primary criteria are positive, or two are and at least two
    secondary criteria are positive; "Normal LAP" exactly when at most one
    primary criterion is positive, or two are and, of at least one available
    secondary criterion, none is positive; "Indeterminate" exactly when two
    primary criteria are positive and either no secondary criterion is
    available or exactly one is positive. *)
Theorem af_grade_iff (x : DDInputs) :
  let r := AF.computeAF x in
  (gradeLabel r = "Elevated LAP"
   <-> (3 <= AF.count x)%nat \/ (AF.count x = 2%nat /\ (2 <= AF.sec x)%nat))
  /\ (gradeLabel r = "Normal LAP"
      <-> (AF.count x <= 1)%nat
          \/ (AF.count x = 2%nat /\ AF.secAvail x <> 0%nat /\ AF.sec x = 0%nat))
  /\ (gradeLabel r = "Indeterminate"
      <-> AF.count x = 2%nat /\ (AF.secAvail x = 0%nat \/ AF.sec x = 1%nat)).
Proof.
  intros r. subst r. destruct (af_sec_bounds x) as [Hsec Havail].
  unfold AF.computeAF.
  destruct (Nat.leb_spec (AF.count x) 1) as [H1|H1];
    [|destruct (Nat.leb_spec 3 (AF.count x)) as [H3|H3];
      [|destruct (Nat.eqb_spec (AF.secAvail x) 0) as [Ha|Ha];
        [|destruct (Nat.leb_spec 2 (AF.sec x)) as [H2|H2];
          [|destruct (Nat.eqb_spec (AF.sec x) 0) as [H0|H0]]]]];
    simpl; (split; [|split]); split; intros H;
    first [ discriminate | reflexivity | lia ].
Qed.

(** X8. The tallies of [computeAF] are bounded: at most four primary
    criteria are positive, at most three secondary criteria are available, and
    no more are positive than are available. *)
Theorem af_tally_bounds (x : DDInputs) :
  (AF.count x <= 4)%nat
  /\ (AF.sec x <= AF.secAvail x)%nat
  /\ (AF.secAvail x <= 3)%nat.
Proof.
  split; [apply af_count_bound | apply af_sec_bounds].
Qed.

(** ** The rule trace *)

Lemma sinus_nAbn_bound (x : DDInputs) : (Sinus.nAbn x <= 3)%nat.
Proof.
  unfold Sinus.nAbn.
  destruct (Sinus.reducedE x), (Sinus.highEe x), (Sinus.highTR x); simpl; lia.
Qed.

(** X9. The sinus trace is never empty: it opens with the line that gives
    the number of abnormal top markers, between 0 and 3, followed by at most
    two entries taken from the four stage entries; nothing follows exactly
    when no marker is abnormal. *)
Theorem sinus_trace_shape (x : DDInputs) :
  exists rest,
    ruleTrace (Sinus.computeSinus x)
    = ("Top markers abnormal: " ++ JS.show (Sinus.nAbn x) ++ "/3") :: rest
    /\ (Sinus.nAbn x <= 3)%nat
    /\ (List.length rest <= 2)%nat
    /\ Forall (fun s => In s sinusStageEntries) rest
    /\ (rest = [] <-> Sinus.nAbn x = 0%nat).
Proof.
  pose proof (sinus_nAbn_bound x) as Hb.
  unfold Sinus.computeSinus, Sinus.confirmLAP, Sinus.gradeElevated.
  destruct (Nat.eqb_spec (Sinus.nAbn x) 0) as [Hn|Hn];
    repeat match goal with
           | |- context [if ?c then _ else _] => destruct c
           | |- context [match ?c with Some _ => _ | None => _ end] => destruct c
           end; simpl; eexists; (split; [reflexivity|]);
    (split; [exact Hb|]); simpl;
    (split; [lia|]);
    (split; [repeat constructor; simpl; tauto|]);
    split; intros H; try discriminate; try reflexivity; try assumption;
    contradiction.
Qed.

(** X10. The AF trace is never empty: it is the line giving the number of
    positive primary criteria, followed, exactly when that number is two, by
    the line giving the positive and the available secondary criteria. *)
Theorem af_trace_shape (x : DDInputs) :
  ruleTrace (AF.computeAF x)
  = ("AF criteria positive: " ++ JS.show (AF.count x) ++ "/4")
    :: (if Nat.eqb (AF.count x) 2
        then ["Secondary criteria positive: " ++ JS.show (AF.sec x) ++ "/"
                ++ JS.show (AF.secAvail x)]
        else []).
Proof.
  unfold AF.computeAF.
  destruct (Nat.leb_spec (AF.count x) 1) as [H1|H1];
    [|destruct (Nat.leb_spec 3 (AF.count x)) as [H3|H3]].
  - assert (Hne : Nat.eqb (AF.count x) 2 = false) by (apply Nat.eqb_neq; lia).
    rewrite Hne. reflexivity.
  - assert (Hne : Nat.eqb (AF.count x) 2 = false) by (apply Nat.eqb_neq; lia).
    rewrite Hne. reflexivity.
  - assert (He : Nat.eqb (AF.count x) 2 = true) by (apply Nat.eqb_eq; lia).
    rewrite He.
    assert (Hor : (if Nat.eqb (AF.secAvail x) 0 then 0%nat else AF.secAvail x)
                  = AF.secAvail x).
    { destruct (Nat.eqb_spec (AF.secAvail x) 0) as [Ha|Ha]; congruence. }
    rewrite Hor.
    repeat match goal with
           | |- context [if ?c then _ else _] => destruct c
           end; reflexivity.
Qed.

(** ** The missing-input list, in length and repetition *)

(** X11. The missing-input list has no repeated advisory and holds at most
    three advisories in sinus mode and at most four in AF mode; it is empty
    exactly when every checked measurement (or one of each checked pair) is
    present. *)
Theorem missing_list_bounds (x : DDInputs) :
  let m := missing (computeDD2025 x) in
  NoDup m
  /\ (List.length m <= if isAF x then 4 else 3)%nat
  /\ (m = []
      <-> if isAF x
          then E x <> None /\ eSeptal x <> None
               /\ ~ (trVmax x = None /\ pasp x = None) /\ dt x <> None
          else E x <> None /\ A x <> None
               /\ ~ (eSeptal x = None /\ eLateral x = None)).
Proof.
  intros m. subst m. unfold computeDD2025. destruct (isAF x).
  - rewrite af_missing. unfold AF.missing.
    destruct (E x), (eSeptal x), (trVmax x), (pasp x), (dt x); simpl;
      (split; [repeat constructor; simpl; intuition discriminate|]);
      (split; [lia|]);
      split; intros H; try discriminate;
      try (repeat split; try discriminate; intros [? ?]; discriminate);
      try (exfalso; intuition congruence).
  - rewrite sinus_missing. unfold Sinus.missing.
    destruct (E x), (A x), (eSeptal x), (eLateral x); simpl;
      (split; [repeat constructor; simpl; intuition discriminate|]);
      (split; [lia|]);
      split; intros H; try discriminate;
      try (repeat split; try discriminate; intros [? ?]; discriminate);
      try (exfalso; intuition congruence).
Qed.

(** ** Absent and zero measurements *)

(** X12. In sinus mode, when neither e′ nor TR Vmax nor PASP is measured, no
    top marker can be abnormal and the result is "Normal DF" with tone green,
    whatever E, A and the confirmatory inputs are. *)
Theorem sinus_without_marker_inputs (x : DDInputs) :
  isAF x = false ->
  eSeptal x = None -> eLateral x = None -> trVmax x = None -> pasp x = None ->
  gradeLabel (computeDD2025 x) = "Normal DF"
  /\ badgeTone (computeDD2025 x) = green
  /\ EeAvg (derived (computeDD2025 x)) = None.
Proof.
  intros Hmode Hs Hl Ht Hp. unfold computeDD2025. rewrite Hmode.
  assert (Hn : Sinus.nAbn x = 0%nat).
  { apply nAbn_zero_iff.
    unfold Sinus.reducedE, Sinus.highEe, Sinus.highTR, Sinus.EeAvg, Sinus.eAvg.
    rewrite Hs, Hl, Ht, Hp. simpl. destruct (E x); repeat split; reflexivity. }
  rewrite sinus_derived. unfold Sinus.computeSinus. rewrite Hn. simpl.
  repeat split. unfold Sinus.EeAvg, Sinus.eAvg. rewrite Hs, Hl.
  destruct (E x); reflexivity.
Qed.

Lemma sinus_without_marker_inputs_witness :
  Sinus.lap noMarkerInputBundle = true
  /\ gradeLabel (computeDD2025 noMarkerInputBundle) = "Normal DF"
  /\ badgeTone (computeDD2025 noMarkerInputBundle) = green
  /\ EeAvg (derived (computeDD2025 noMarkerInputBundle)) = None.
Proof.
  split; [reflexivity|].
  apply (sinus_without_marker_inputs noMarkerInputBundle); reflexivity.
Defined.

(** X13. In AF mode, when E is absent at most two primary criteria can be
    positive, and when E, TR Vmax, PASP and DT are all absent none is: the
    result is then "Normal LAP" with tone green, while the missing-input list
    names E, TR Vmax/PASP and DT. *)
Theorem af_without_primary_inputs (x : DDInputs) :
  isAF x = true -> E x = None ->
  (AF.count x <= 2)%nat
  /\ (trVmax x = None -> pasp x = None -> dt x = None ->
      AF.count x = 0%nat
      /\ gradeLabel (computeDD2025 x) = "Normal LAP"
      /\ badgeTone (computeDD2025 x) = green
      /\ In "Mitral E (cm/s)" (missing (computeDD2025 x))
      /\ In "TR Vmax (m/s) or PASP (mmHg)" (missing (computeDD2025 x))
      /\ In "DT (ms)" (missing (computeDD2025 x))).
Proof.
  intros Hmode He. split.
  - rewrite af_count_sum. unfold AF.critE, AF.critEe. rewrite He. simpl.
    destruct (AF.critTR x), (AF.critDT x); simpl; lia.
  - intros Ht Hp Hd.
    assert (Hc : AF.count x = 0%nat).
    { rewrite af_count_sum. unfold AF.critE, AF.critEe, AF.critTR, AF.critDT.
      rewrite He, Ht, Hp, Hd. reflexivity. }
    split; [exact Hc|]. unfold computeDD2025. rewrite Hmode, af_missing.
    unfold AF.computeAF. rewrite Hc. simpl.
    split; [reflexivity|]. split; [reflexivity|].
    rewrite !af_missing_iff. rewrite He, Ht, Hp, Hd. tauto.
Qed.

Lemma af_without_primary_inputs_witness :
  gradeLabel (computeDD2025 afEmptyBundle) = "Normal LAP"
  /\ badgeTone (computeDD2025 afEmptyBundle) = green.
Proof.
  destruct (proj2 (af_without_primary_inputs afEmptyBundle eq_refl eq_refl)
              eq_refl eq_refl eq_refl) as [_ [Hg [Ht _]]].
  split; [exact Hg | exact Ht].
Defined.

Lemma safeDiv_null_iff (a b : option float) :
  safeDiv a b = None
  <-> a = None \/ b = None \/ exists d, b = Some d /\ (d =? 0) = true.
Proof.
  destruct a as [n|], b as [d|]; simpl.
  - unfold JS.strict_eq. destruct (d =? 0) eqn:Hz; split.
    + intros _. right. right. exists d. split; [reflexivity | exact Hz].
    + reflexivity.
    + discriminate.
    + intros [H | [H | [d' [Hd Hz']]]]; try discriminate.
      assert (Hdd : d' = d).
      { exact (f_equal (fun o => match o with Some w => w | None => d' end) (eq_sym Hd)). }
      rewrite Hdd in Hz'. rewrite Hz' in Hz. discriminate.
  - split; [intros _; right; left; reflexivity | reflexivity].
  - split; [intros _; left; reflexivity | reflexivity].
  - split; [intros _; left; reflexivity | reflexivity].
Qed.

(** X14. In sinus mode the derived E/A is null exactly when E is absent, A
    is absent or A is zero: a zero denominator is absorbed as a missing ratio.
    Under elevated LAP a zero A therefore gives "Increased LAP (grade
    unknown)", never Grade 2 or 3.  Likewise the derived E/average-e′ is null
    exactly when E is absent, both e′ are absent or the average e′ is zero. *)
Theorem sinus_ratio_null_iff (x : DDInputs) :
  isAF x = false ->
  let d := derived (computeDD2025 x) in
  (EA d = None
   <-> E x = None \/ A x = None \/ exists a, A x = Some a /\ (a =? 0) = true)
  /\ (eAvg d = None <-> eSeptal x = None /\ eLateral x = None)
  /\ (EeAvg d = None
      <-> E x = None \/ (eSeptal x = None /\ eLateral x = None)
          \/ exists v, eAvg d = Some v /\ (v =? 0) = true).
Proof.
  intros Hmode d. subst d. unfold computeDD2025. rewrite Hmode, sinus_derived.
  simpl. split; [apply safeDiv_null_iff|].
  assert (Havg : Sinus.eAvg x = None <-> eSeptal x = None /\ eLateral x = None).
  { unfold Sinus.eAvg. destruct (eSeptal x), (eLateral x); simpl; split;
      intros H; try discriminate; try (split; reflexivity);
      destruct H; discriminate. }
  split; [exact Havg|].
  unfold Sinus.EeAvg. rewrite safeDiv_null_iff, Havg. reflexivity.
Qed.

Lemma sinus_ratio_null_iff_witness :
  A zeroABundle = Some 0
  /\ EA (derived (computeDD2025 zeroABundle)) = None
  /\ gradeLabel (computeDD2025 zeroABundle) = "Increased LAP (grade unknown)".
Proof.
  split; [reflexivity|]. split; [|reflexivity].
  apply (proj1 (sinus_ratio_null_iff zeroABundle eq_refl)).
  right. right. exists 0. split; reflexivity.
Defined.

(** ** The two-value average *)

(** X16. The two-value average does not depend on the order of its
    operands, present or absent. *)
Theorem avg2_symmetric (a b : option float) : avg2 a b = avg2 b a.
Proof.
  destruct a as [p|], b as [q|]; simpl; try reflexivity.
  rewrite (add_comm p q). reflexivity.
Qed.

(** ** The reduced-e′ marker when one e′ is missing *)

(** X20. The reduced-e′ marker tests the average e′ against 6.5, and the
    average of a single measured e′ is that e′ itself.  With septal e′ alone
    the marker is therefore true up to 6.5, not only up to 6; with lateral e′
    alone it is true up to 7. *)
Theorem reducedE_effective (x : DDInputs) :
  (forall s, eSeptal x = Some s -> eLateral x = None ->
     (Sinus.reducedE x = true <-> (s <=? 6.5) = true))
  /\ (forall l, eSeptal x = None -> eLateral x = Some l ->
      (Sinus.reducedE x = true <-> (l <=? 7) = true)).
Proof.
  split.
  - intros s Hs Hl. unfold Sinus.reducedE, Sinus.eAvg. rewrite Hs, Hl. simpl.
    rewrite orb_false_r, orb_true_iff. unfold JS.le. split.
    + intros [H | H]; [|exact H].
      apply (le_widen s 6755399441055744 7318349394477056 (-50) 6 6.5);
        [reflexivity | reflexivity | lia | exact H].
    + intros H. right. exact H.
  - intros l Hs Hl. unfold Sinus.reducedE, Sinus.eAvg. rewrite Hs, Hl. simpl.
    rewrite orb_true_iff. unfold JS.le. split.
    + intros [H | H]; [exact H|].
      apply (le_widen l 7318349394477056 7881299347898368 (-50) 6.5 7);
        [reflexivity | reflexivity | lia | exact H].
    + intros H. left. exact H.
Qed.

Lemma reducedE_effective_witness :
  Sinus.reducedE septalOnlyBundle = true
  /\ gradeLabel (computeDD2025 septalOnlyBundle) = "Indeterminate".
Proof.
  split; [|reflexivity].
  apply (proj1 (reducedE_effective septalOnlyBundle) 6.3 eq_refl eq_refl).
  reflexivity.
Defined.

(** ** Lateral e′ in AF mode *)

(** X21. In AF mode lateral e′ enters the derived average e′ and
    E/average-e′ only: the grade, rationale, tone, trace and missing-input list
    are the same whatever lateral e′ is. *)
Theorem af_lateral_display_only (x : DDInputs) (l : option float) :
  let r := AF.computeAF x in
  let r' := AF.computeAF (setLateral x l) in
  gradeLabel r' = gradeLabel r /\ summary r' = summary r
  /\ badgeTone r' = badgeTone r /\ ruleTrace r' = ruleTrace r
  /\ missing r' = missing r
  /\ eAvg (derived r') = avg2 (eSeptal x) l.
Proof.
  intros r r'. subst r r'. rewrite af_derived. unfold AF.computeAF.
  change (AF.count (setLateral x l)) with (AF.count x).
  change (AF.sec (setLateral x l)) with (AF.sec x).
  change (AF.secAvail (setLateral x l)) with (AF.secAvail x).
  change (AF.missing (setLateral x l)) with (AF.missing x).
  repeat match goal with
         | |- context [if ?c then _ else _] => destruct c
         end; repeat split; reflexivity.
Qed.

(** * The summary text of the page *)

Lemma trace_nonempty (x : DDInputs) :
  Nat.ltb 0 (List.length (ruleTrace (computeDD2025 x))) = true.
Proof.
  unfold computeDD2025. destruct (isAF x); engine_paths; reflexivity.
Qed.

Lemma fold_left_push (g : string -> string) (l acc : list string) :
  List.fold_left (fun lines r => JS.push lines (g r)) l acc
  = (acc ++ List.map g l)%list.
Proof.
  revert acc. induction l as [|r l IH]; intros acc; simpl.
  - rewrite app_nil_r. reflexivity.
  - rewrite IH. unfold JS.push. rewrite <- app_assoc. reflexivity.
Qed.

(** X22. Turning the trace on adds to the summary of an engine result an
    empty line, the line "Rule trace:" and one "- " line per trace entry, in
    order, after everything else; since the engine's trace is never empty,
    the section is never left out. *)
Theorem summary_trace_section (String_ : float -> string) (Math_pow : float -> float -> float) (formIsAF : bool)
    (x : DDInputs) :
  let r := computeDD2025 x in
  Page.summaryLines String_ Math_pow formIsAF x r true
  = (Page.summaryLines String_ Math_pow formIsAF x r false
     ++ "" :: "Rule trace:"
        :: List.map (fun s => ("- " ++ s)%string) (ruleTrace r))%list.
Proof.
  intros r. subst r. unfold Page.summaryLines. cbv zeta.
  rewrite (trace_nonempty x). cbn [andb].
  rewrite (fold_left_push (fun s => "- " ++ s)). unfold JS.push at 1 2.
  rewrite <- !app_assoc. reflexivity.
Qed.

Lemma existsb_push (P : string -> bool) (lines : list string) (s : string) :
  existsb P (JS.push lines s) = existsb P lines || P s.
Proof.
  unfold JS.push. rewrite existsb_app. simpl. rewrite orb_false_r. reflexivity.
Qed.

Lemma existsb_add (String_ : float -> string) (P : string -> bool) (b : bool)
    (lines : list string) (label : string) (v : option float) (unit : string) :
  (forall t, P (label ++ ": " ++ t) = b) ->
  existsb P (Page.add String_ lines label v unit)
  = existsb P lines || (b && negb (JS.is_null v)).
Proof.
  intros HP. unfold Page.add. destruct v as [n|]; cbn [JS.is_null negb].
  - rewrite existsb_push, HP, andb_true_r. reflexivity.
  - rewrite andb_false_r, orb_false_r. reflexivity.
Qed.

Lemma existsb_trace_lines (P : string -> bool) (l acc : list string) :
  (forall r, P ("- " ++ r) = false) ->
  existsb P (List.fold_left (fun lines r => JS.push lines ("- " ++ r)) l acc)
  = existsb P acc.
Proof.
  intros HP. rewrite (fold_left_push (fun r => "- " ++ r)), existsb_app.
  assert (Hm : existsb P (List.map (fun r => "- " ++ r) l) = false).
  { induction l as [|r l IH]; cbn [List.map existsb]; [reflexivity|].
    rewrite HP, IH. reflexivity. }
  rewrite Hm, orb_false_r. reflexivity.
Qed.

Lemma prefix_empty (t : string) : String.prefix "" t = true.
Proof. destruct t; reflexivity. Qed.

(** Decide whether a line that opens with a known label has a known prefix. *)
Ltac known_prefix := intros; cbn; first [reflexivity | apply prefix_empty].

(** Rewrite a search through the summary lines into the searches through each
    pushed line. *)
Ltac summary_search :=
  repeat first
    [ rewrite existsb_trace_lines by known_prefix
    | rewrite existsb_push
    | rewrite (existsb_add _ _ false) by known_prefix
    | rewrite (existsb_add _ _ true) by known_prefix ].

Lemma missing_line_found (t : string) :
  Page.isMissingLine ("Missing/recommended: " ++ t) = true.
Proof. unfold Page.isMissingLine. known_prefix. Qed.

(** X23. Whatever the result, the summary has a "Missing/recommended:" line
    exactly when the missing-input list of the result is not empty. *)
Theorem summary_missing_section (String_ : float -> string) (Math_pow : float -> float -> float) (formIsAF : bool)
    (x : DDInputs) (r : DDResult) (showTrace : bool) :
  existsb Page.isMissingLine (Page.summaryLines String_ Math_pow formIsAF x r showTrace)
  = Nat.ltb 0 (List.length (missing r)).
Proof.
  destruct (Nat.ltb 0 (List.length (missing r))) eqn:Hm;
    unfold Page.summaryLines; cbv zeta; rewrite Hm;
    destruct formIsAF, (showTrace && Nat.ltb 0 (List.length (ruleTrace r)));
    cbn [negb]; summary_search;
    first [ reflexivity
          | rewrite missing_line_found; cbn; rewrite ?orb_true_r; reflexivity ].
Qed.

(** X24. Whatever the result, the summary has a line for a measurement
    exactly when that measurement is present and shown for the mode: mitral A,
    lateral e′ and IVRT in sinus mode only, DT and BMI in AF mode only, the
    others in both.  An absent measurement is never printed. *)
Theorem summary_input_lines (String_ : float -> string) (Math_pow : float -> float -> float) (formIsAF : bool)
    (x : DDInputs) (r : DDResult) (showTrace : bool) (f : Field) :
  existsb (Page.isInputLine f) (Page.summaryLines String_ Math_pow formIsAF x r showTrace)
  = Page.shownIn formIsAF f && negb (JS.is_null (field f x)).
Proof.
  unfold Page.summaryLines; cbv zeta.
  destruct (Nat.ltb 0 (List.length (missing r))),
    (showTrace && Nat.ltb 0 (List.length (ruleTrace r)));
    destruct formIsAF; cbn [negb];
    destruct f; unfold Page.isInputLine, Page.inputLabel; summary_search;
    cbn; rewrite ?orb_false_r; reflexivity.
Qed.

(** * The badge of the page *)

(** X26. The badge shown for an engine result agrees with its grade: it
    reads "Normal" exactly for "Normal DF" and "Normal LAP", "Grade 1" exactly
    for "Grade 1", "Indeterminate" exactly for "Indeterminate", and "Elevated"
    exactly for "Grade 2", "Grade 3", "Increased LAP (grade unknown)" and
    "Elevated LAP"; the dash and the gray style of its last branch are never
    shown. *)
Theorem badge_agrees_with_grade (x : DDInputs) :
  let r := computeDD2025 x in
  let g := gradeLabel r in
  let b := Badge.label (badgeTone r) in
  (b = "Normal" <-> g = "Normal DF" \/ g = "Normal LAP")
  /\ (b = "Grade 1" <-> g = "Grade 1")
  /\ (b = "Indeterminate" <-> g = "Indeterminate")
  /\ (b = "Elevated"
      <-> g = "Grade 2" \/ g = "Grade 3"
          \/ g = "Increased LAP (grade unknown)" \/ g = "Elevated LAP")
  /\ b <> "—"
  /\ Badge.cls (badgeTone r) <> Badge.cls gray.
Proof.
  intros r g b. subst r g b. unfold computeDD2025.
  destruct (isAF x); engine_paths; cbn [gradeLabel badgeTone pack Badge.label Badge.cls];
    repeat split; intros H; try discriminate; try tauto;
    repeat match goal with
           | H : _ \/ _ |- _ => destruct H
           end; discriminate.
Qed.
